(** * Morpho peer-to-pool adapter: balance reconciliation, profits and
      token-metadata resolution

    A shallow embedding of [MorphoBasePoolAdapter] (positions, movements,
    profits, total value locked, APR blending) and of [getTokenMetadata],
    followed by the properties established about them.

    Conventions.
    - A JavaScript [bigint] is a [Z]; [a / b] on the non-negative values the
      adapter handles is [Z.div].
    - A JavaScript object used as a dictionary ([Record<string, T>]) is a
      [gmap string T].  [Object.values] is the list of values of the map; the
      insertion order JavaScript keeps is not represented.
    - An [async] function that may throw is a function into [Result]; awaiting
      is monadic bind, and [Promise.all] over independent reads is a sequence
      of binds (the reads are read-only, so their interleaving is not
      observable).
    - The chain reader, the event reader and the interest-rate model
      ([P2PInterestRates]) are interfaces (type classes). *)

From Stdlib Require Import ZArith Lia Ascii.
From stdpp Require Import base option list gmap strings fin_maps.
From stdpp Require Import pretty.

Local Open Scope Z_scope.

(** ** Errors and the result monad *)

Inductive Error : Type :=
| DivisionByZero          (* bigint division by 0n (a JavaScript RangeError) *)
| RangeError              (* BigInt() of a non-finite number *)
| PoolNotFound            (* Error('Protocol token pool not found') *)
| TokenMetadataNotFound   (* Error('Cannot find token metadata for token') *)
| InvalidEventType        (* Error('Invalid event type') *)
| InvalidAddress          (* ethers' getAddress rejects its argument *)
| BadData                 (* an ethers error with code 'BAD_DATA' *)
| NotImplemented          (* NotImplementedError *)
| UpstreamReadFailure.    (* a failed provider call *)

Inductive Result (A : Type) : Type :=
| Ok (a : A)
| Err (e : Error).
Arguments Ok {A} a.
Arguments Err {A} e.

#[export] Instance Result_ret : MRet Result := fun A a => Ok a.
#[export] Instance Result_bind : MBind Result := fun A B f r =>
  match r with
  | Ok a => f a
  | Err e => Err e
  end.
#[export] Instance Result_fmap : FMap Result := fun A B f r =>
  match r with
  | Ok a => Ok (f a)
  | Err e => Err e
  end.

(** [Promise.all(xs.map(f))]: every element is processed, the first failure
    rejects the whole batch. *)
Fixpoint promiseAll {A B} (f : A → Result B) (xs : list A) : Result (list B) :=
  match xs with
  | [] => Ok []
  | x :: xs' => y ← f x; ys ← promiseAll f xs'; Ok (y :: ys)
  end.

(** ** JavaScript operators used by the sources *)

(** [a ?? b] on an optional value. *)
Definition nullish {A} (o : option A) (d : A) : A :=
  match o with Some a => a | None => d end.
Infix "??" := nullish (at level 45, left associativity).

(** A string is truthy exactly when it is not empty. *)
Definition truthy (s : string) : bool :=
  match s with EmptyString => false | String _ _ => true end.

(** [a || b] on strings: the left operand when it is truthy. *)
Definition js_or (a b : string) : string := if truthy a then a else b.

(** The property names a plain object inherits from [Object.prototype].  A
    read [obj[k]] at one of them finds the inherited member, which is
    truthy, also when [obj] has no property [k] of its own.  A finite map
    stands for the own properties of an object only: it agrees with
    [obj[k]] at every other [k]. *)
Definition Object_prototype_keys : list string :=
  [ "constructor"; "__defineGetter__"; "__defineSetter__"; "hasOwnProperty";
    "__lookupGetter__"; "__lookupSetter__"; "isPrototypeOf";
    "propertyIsEnumerable"; "toString"; "valueOf"; "__proto__";
    "toLocaleString" ].

(** ** JavaScript numbers, as far as [10 ** decimals] needs them *)

Module JsNumber.

(** A finite, non-negative, integer-valued [Number] is represented by the
    integer it denotes; [None] is [Infinity].

    [roundToDouble x], for an integer [x >= 0], is the binary64 value
    nearest to [x], ties to even: integers below [2^53] are exact, larger
    ones keep 53 significant bits. *)
Definition roundToDouble (x : Z) : option Z :=
  let n := Z.log2 x in
  if n <? 53 then Some x
  else
    let s := n - 52 in
    let q := x / 2 ^ s in
    let r := x mod 2 ^ s in
    let half := 2 ^ (s - 1) in
    let q' := if (half <? r) || ((r =? half) && Z.odd q) then q + 1 else q in
    let y := q' * 2 ^ s in
    if y <? 2 ^ 1024 then Some y else None.

(** The integers a [Number] can hold: a significand of at most 53 bits
    scaled by a power of two. *)
Definition isDouble (z : Z) : Prop :=
  ∃ m e : Z, 0 ≤ m < 2 ^ 53 ∧ 0 ≤ e ∧ z = m * 2 ^ e.

(** [10 ** d] for a non-negative integer [d].  The language leaves the
    result of [**] implementation-approximated, and engines do not round it
    correctly for every exponent, so the operator is an interface of the
    engine that runs the adapter rather than a function fixed here:
    [pow10 d] is the engine's [10 ** d].  What the properties below need of
    an engine (that its answer is a [Number], that it is exact where the
    power is representable) they state as hypotheses. *)
Class Exponentiation : Type := {
  pow10 : nat → option Z;
}.

(** [BigInt(v)] of an integer-valued number; [BigInt(Infinity)] throws a
    [RangeError]. *)
Definition BigInt (v : option Z) : Result Z :=
  match v with
  | Some z => Ok z
  | None => Err RangeError
  end.

End JsNumber.

(** ** Fixed-point ray arithmetic *)

Module RayMath.

Definition RAY : Z := 10 ^ 27.
Definition HALF_RAY : Z := RAY / 2.

(** Modelled from the spec: [evm-maths/lib/ray] is an external package and
    is not among the sources.  [rayMul(a, b)] computes [round(a*b/RAY)],
    rounding half up. *)
Definition rayMul (a b : Z) : Z := (a * b + HALF_RAY) / RAY.

(** Modelled from the spec: [rayDiv(a, b)] computes [round(a*RAY/b)],
    rounding half up, and fails with [DivisionByZero] when [b == 0]. *)
Definition rayDiv (a b : Z) : Result Z :=
  if b =? 0 then Err DivisionByZero else Ok ((a * RAY + b / 2) / b).

End RayMath.

Module MorphoAaveMath.

(** Modelled from the spec: [internal-utils/AaveV3.maths] is not among the
    sources.  Indexes are expressed in ray, so the index operations are the
    ray operations of the FixedPointMath component and [ONE] is one ray. *)
Definition ONE : Z := RayMath.RAY.
Definition indexMul (a b : Z) : Z := RayMath.rayMul a b.
Definition indexDiv (a b : Z) : Result Z := RayMath.rayDiv a b.

End MorphoAaveMath.

(** [min] of [evm-maths/lib/utils], on two arguments. *)
Definition min (a b : Z) : Z := Z.min a b.

(** ** Token and market data *)

Record Erc20Metadata : Type := {
  address : string;
  name : string;
  symbol : string;
  decimals : nat;
}.

(** The members of the [Chain] enumeration that the sources name. *)
Module Chain.
Inductive t : Type :=
| Ethereum | Optimism | Bsc | Polygon | Fantom | Base | Arbitrum
| Avalanche | Linea.

#[export] Instance eq_dec : EqDecision t.
Proof. solve_decision. Defined.
End Chain.
Export (hints) Chain.

(** The members of [PositionType] that the sources name. *)
Inductive PositionType : Type := Supply | Borrow | Staked.

#[export] Instance PositionType_eq_dec : EqDecision PositionType.
Proof. solve_decision. Defined.

Module TokenType.
Inductive t : Type := Protocol | Underlying.
End TokenType.

Record MarketSideDelta : Type := {
  scaledDelta : Z;
  scaledP2PTotal : Z;
}.

Record Deltas : Type := {
  supply : MarketSideDelta;
  borrow : MarketSideDelta;
}.

Record MarketSideIndexes : Type := {
  poolIndex : Z;
  p2pIndex : Z;
}.

Record Indexes : Type := {
  supplyIndexes : MarketSideIndexes;   (* indexes.supply *)
  borrowIndexes : MarketSideIndexes;   (* indexes.borrow *)
}.

(** The struct returned by [morphoAaveV3.market(underlying)]. *)
Record Market : Type := {
  idleSupply : Z;
  indexes : Indexes;
  deltas : Deltas;
  p2pIndexCursor : Z;
  reserveFactor : Z;
  aToken : string;
  variableDebtToken : string;
}.

(** The fields of [pool.getReserveData(underlying)] that the adapter reads. *)
Record ReserveData : Type := {
  currentLiquidityRate : Z;
  currentVariableBorrowRate : Z;
  liquidityIndex : Z;
  variableBorrowIndex : Z;
  aTokenAddress : string;
}.

(** ** The interest-rate model interface ([P2PInterestRates]) *)

Record P2PIndexesParams : Type := {
  ip_deltas : Deltas;
  ip_proportionIdle : Z;
  ip_p2pIndexCursor : Z;
  ip_reserveFactor : Z;
  ip_lastBorrowIndexes : MarketSideIndexes;
  ip_lastSupplyIndexes : MarketSideIndexes;
  ip_poolBorrowIndex : Z;
  ip_poolSupplyIndex : Z;
}.

Record P2PIndexes : Type := {
  newP2PSupplyIndex : Z;
  newP2PBorrowIndex : Z;
}.

Record P2PRateParams : Type := {
  rp_p2pIndex : Z;
  rp_proportionIdle : Z;
  rp_p2pIndexCursor : Z;
  rp_reserveFactor : Z;
  rp_delta : MarketSideDelta;
  rp_poolBorrowRatePerYear : Z;
  rp_poolSupplyRatePerYear : Z;
  rp_poolIndex : Z;
}.

(** [internal-utils/P2PInterestRates] is not among the sources: its three
    entry points are the methods of an interface. *)
Class P2PInterestRates : Type := {
  computeP2PIndexes : P2PIndexesParams → Result P2PIndexes;
  computeP2PSupplyRatePerYear : P2PRateParams → Result Z;
  computeP2PBorrowRatePerYear : P2PRateParams → Result Z;
}.

(** ** External collaborators: chain reader and event reader *)

(** [eventLog.args] of the six Morpho movement events: only the two fields
    the adapter reads. *)
Record EventArgs : Type := {
  underlying : string;
  amount : Z;
}.

Record EventLog : Type := {
  args : option EventArgs;
  transactionHash : string;
  blockNumber : Z;
}.

(** [morphoAaveV3Contract.filters.X(undefined, userAddress)]. *)
Inductive EventFilter : Type :=
| Supplied (user : string)
| CollateralSupplied (user : string)
| Withdrawn (user : string)
| CollateralWithdrawn (user : string)
| Repaid (user : string)
| Borrowed (user : string).

#[export] Instance EventFilter_eq_dec : EqDecision EventFilter.
Proof. solve_decision. Defined.

(** Read-only calls at a block tag ([None] is [blockTag: undefined]) and log
    queries over a block range. *)
Class ChainReader : Type := {
  market : string → option Z → Result Market;
  getReserveData : string → option Z → Result ReserveData;
  balanceOf : string → string → option Z → Result Z;
  supplyBalance : string → string → option Z → Result Z;
  collateralBalance : string → string → option Z → Result Z;
  borrowBalance : string → string → option Z → Result Z;
  queryFilter : string → option EventFilter → Z → Z → Result (list EventLog);
}.

(** ** The adapter *)

Record PoolMetadata : Type := {
  protocolToken : Erc20Metadata;
  underlyingToken : Erc20Metadata;
}.

(** The fields of a [MorphoBasePoolAdapter] instance that the modelled
    methods read: [positionType] is [getProtocolDetails().positionType],
    [morphoAddress] is [morphoAaveV3ContractAddresses[protocolId][chainId]]
    and [metadata] is the object [buildMetadata] returns (and caches). *)
Record Adapter : Type := {
  protocolId : string;
  chainId : Chain.t;
  positionType : PositionType;
  morphoAddress : string;
  metadata : gmap string PoolMetadata;
}.

Section MorphoBasePoolAdapter.

Context `{IRM : P2PInterestRates} `{CR : ChainReader}.
Variable (this : Adapter).

Import MorphoAaveMath.

Definition buildMetadata : gmap string PoolMetadata := metadata this.

Definition getProtocolTokens : list Erc20Metadata :=
  protocolToken <$> (map_to_list buildMetadata).*2.

Definition _fetchPoolMetadata (protocolTokenAddress : string)
  : Result PoolMetadata :=
  match buildMetadata !! protocolTokenAddress with
  | Some poolMetadata => Ok poolMetadata
  | None => Err PoolNotFound
  end.

Definition _fetchProtocolTokenMetadata (protocolTokenAddress : string)
  : Result Erc20Metadata :=
  protocolToken <$> _fetchPoolMetadata protocolTokenAddress.

Definition _fetchUnderlyingTokensMetadata (protocolTokenAddress : string)
  : Result (list Erc20Metadata) :=
  pm ← _fetchPoolMetadata protocolTokenAddress; Ok [underlyingToken pm].

(** *** Total value locked and APR *)

(** The expression bound to [proportionIdle].  The source writes it out
    four times, identically: in both branches of [getTotalValueLocked] and
    in both branches of [_getProtocolTokenApr]; all four read the supply
    side of [deltas] and [indexes]. *)
Definition proportionIdle (m : Market) : Result Z :=
  if idleSupply m =? 0 then Ok 0
  else
    q ← indexDiv (idleSupply m)
          (indexMul (scaledP2PTotal (supply (deltas m)))
                    (p2pIndex (supplyIndexes (indexes m))));
    Ok (min ONE q).

(** The argument of [computeP2PIndexes], the same at its four call sites. *)
Definition indexesParams (m : Market) (rd : ReserveData) (pI : Z)
  : P2PIndexesParams :=
  {| ip_deltas := deltas m;
     ip_proportionIdle := pI;
     ip_p2pIndexCursor := p2pIndexCursor m;
     ip_reserveFactor := reserveFactor m;
     ip_lastBorrowIndexes :=
       {| poolIndex := poolIndex (borrowIndexes (indexes m));
          p2pIndex := p2pIndex (borrowIndexes (indexes m)) |};
     ip_lastSupplyIndexes :=
       {| poolIndex := poolIndex (supplyIndexes (indexes m));
          p2pIndex := p2pIndex (supplyIndexes (indexes m)) |};
     ip_poolBorrowIndex := variableBorrowIndex rd;
     ip_poolSupplyIndex := liquidityIndex rd |}.

(** [totalValueRaw] of one market in [getTotalValueLocked], from the market
    state, the pool reserve data and the pool-held balance
    ([supplyOnPool] or [borrowOnPool]). *)
Definition totalValueRaw (pt : PositionType) (m : Market) (rd : ReserveData)
    (onPool : Z) : Result Z :=
  match pt with
  | Supply =>
      pI ← proportionIdle m;
      ix ← computeP2PIndexes (indexesParams m rd pI);
      let supplyInP2P :=
        indexMul (scaledP2PTotal (supply (deltas m))) (newP2PSupplyIndex ix) in
      Ok (supplyInP2P + onPool)
  | _ =>
      pI ← proportionIdle m;
      ix ← computeP2PIndexes (indexesParams m rd pI);
      let borrowInP2P :=
        indexMul (scaledP2PTotal (borrow (deltas m))) (newP2PBorrowIndex ix) in
      Ok (borrowInP2P + onPool)
  end.

Record ProtocolTokenTvl : Type := {
  tvl_token : Erc20Metadata;
  tvl_type : TokenType.t;
  totalSupplyRaw : Z;
}.

(** The token whose balance held by Morpho is the pool-held amount. *)
Definition poolHeldToken (pt : PositionType) (m : Market) : string :=
  match pt with
  | Supply => aToken m
  | _ => variableDebtToken m
  end.

(** [totalValueRaw] is assigned in both branches, so the
    [totalValueRaw !== undefined ? totalValueRaw : 0n] of the returned object
    is [totalValueRaw]. *)
Definition getTotalValueLocked (blockNumber : option Z)
  : Result (list ProtocolTokenTvl) :=
  promiseAll (fun tokenMetadata =>
    pm ← _fetchPoolMetadata (address tokenMetadata);
    m ← market (address (underlyingToken pm)) blockNumber;
    rd ← getReserveData (address (underlyingToken pm)) blockNumber;
    onPool ← balanceOf (poolHeldToken (positionType this) m)
               (morphoAddress this) blockNumber;
    total ← totalValueRaw (positionType this) m rd onPool;
    Ok {| tvl_token := tokenMetadata;
          tvl_type := TokenType.Protocol;
          totalSupplyRaw := total |})
    getProtocolTokens.

(** The [bigint] bound to [rate] in [_getProtocolTokenApr]. *)
Definition protocolTokenAprRate (pt : PositionType) (m : Market)
    (rd : ReserveData) (onPool : Z) : Result Z :=
  match pt with
  | Supply =>
      pI ← proportionIdle m;
      ix ← computeP2PIndexes (indexesParams m rd pI);
      let supplyInP2P :=
        indexMul (scaledP2PTotal (supply (deltas m))) (newP2PSupplyIndex ix) in
      let totalSupply := supplyInP2P + onPool in
      p2pSupplyRate ← computeP2PSupplyRatePerYear
        {| rp_p2pIndex := newP2PSupplyIndex ix;
           rp_proportionIdle := pI;
           rp_p2pIndexCursor := p2pIndexCursor m;
           rp_reserveFactor := reserveFactor m;
           rp_delta := supply (deltas m);
           rp_poolBorrowRatePerYear := currentVariableBorrowRate rd;
           rp_poolSupplyRatePerYear := currentLiquidityRate rd;
           rp_poolIndex := liquidityIndex rd |};
      if totalSupply =? 0 then Ok (currentLiquidityRate rd)
      else RayMath.rayDiv
             (indexMul p2pSupplyRate supplyInP2P
              + indexMul (currentLiquidityRate rd) onPool)
             totalSupply
  | _ =>
      pI ← proportionIdle m;
      ix ← computeP2PIndexes (indexesParams m rd pI);
      let borrowInP2P :=
        indexMul (scaledP2PTotal (borrow (deltas m))) (newP2PBorrowIndex ix) in
      let totalBorrow := borrowInP2P + onPool in
      p2pBorrowRate ← computeP2PBorrowRatePerYear
        {| rp_p2pIndex := newP2PBorrowIndex ix;
           rp_proportionIdle := pI;
           rp_p2pIndexCursor := p2pIndexCursor m;
           rp_reserveFactor := reserveFactor m;
           rp_delta := borrow (deltas m);
           rp_poolBorrowRatePerYear := currentVariableBorrowRate rd;
           rp_poolSupplyRatePerYear := currentLiquidityRate rd;
           rp_poolIndex := variableBorrowIndex rd |};
      if totalBorrow =? 0 then Ok (currentVariableBorrowRate rd)
      else RayMath.rayDiv
             (indexMul p2pBorrowRate borrowInP2P
              + indexMul (currentVariableBorrowRate rd) onPool)
             totalBorrow
  end.

(** [_getProtocolTokenApr] up to its last line: the result is [rate], in
    ray; the source returns [Number(rate) / RAY], a floating-point value. *)
Definition _getProtocolTokenApr (protocolTokenAddress : string)
    (blockNumber : option Z) : Result Z :=
  pm ← _fetchPoolMetadata protocolTokenAddress;
  m ← market (address (underlyingToken pm)) blockNumber;
  rd ← getReserveData (address (underlyingToken pm)) blockNumber;
  onPool ← balanceOf (poolHeldToken (positionType this) m)
             (morphoAddress this) blockNumber;
  protocolTokenAprRate (positionType this) m rd onPool.

(** *** Positions *)

Record TokenBalance : Type := {
  tb_token : Erc20Metadata;
  tb_balanceRaw : Z;
}.

(** An underlying token with its balance: the token's metadata spread into
    the object, [balanceRaw] and [type]. *)
Record Underlying : Type := {
  u_token : Erc20Metadata;
  u_balanceRaw : Z;
  u_type : TokenType.t;
}.

(** An element of the list [getPositions] returns:
    [{...protocolTokenBalance, balanceRaw, name, symbol, decimals, type,
    tokens}], where [protocolTokenBalance] is [{address, balance}]. *)
Record ProtocolPosition : Type := {
  pp_token : Erc20Metadata;
  pp_balance : Z;
  pp_balanceRaw : Z;
  pp_type : TokenType.t;
  pp_tokens : list Underlying;
}.

Definition _getUnderlyingTokenBalances (protocolTokenBalance : TokenBalance)
  : Result (list Underlying) :=
  pm ← _fetchPoolMetadata (address (tb_token protocolTokenBalance));
  let underlyingTokenBalance :=
    {| u_token := underlyingToken pm;
       u_balanceRaw := tb_balanceRaw protocolTokenBalance;
       u_type := TokenType.Underlying |} in
  Ok [underlyingTokenBalance].

(** The local function [getBalance] of [getPositions]. *)
Definition getBalance (market : Erc20Metadata) (userAddress : string)
    (blockNumber : option Z) : Result Z :=
  if decide (positionType this = Supply) then
    supplyBalance ← supplyBalance (address market) userAddress blockNumber;
    collateralBalance ←
      collateralBalance (address market) userAddress blockNumber;
    Ok (supplyBalance + collateralBalance)
  else
    borrowBalance (address market) userAddress blockNumber.

Definition getPositions (userAddress : string) (blockNumber : option Z)
  : Result (list ProtocolPosition) :=
  protocolTokensBalances ←
    promiseAll (fun market : Erc20Metadata =>
      pm ← _fetchPoolMetadata (address market);
      amount ← getBalance (underlyingToken pm) userAddress blockNumber;
      Ok (address market, amount))
      getProtocolTokens;
  promiseAll (fun protocolTokenBalance : string * Z =>
    tokenMetadata ← _fetchProtocolTokenMetadata protocolTokenBalance.1;
    let completeTokenBalance :=
      {| tb_token :=
           {| address := protocolTokenBalance.1;
              name := name tokenMetadata;
              symbol := symbol tokenMetadata;
              decimals := decimals tokenMetadata |};
         tb_balanceRaw := protocolTokenBalance.2 |} in
    underlyingTokenBalances ←
      _getUnderlyingTokenBalances completeTokenBalance;
    Ok {| pp_token := tb_token completeTokenBalance;
          pp_balance := protocolTokenBalance.2;
          pp_balanceRaw := protocolTokenBalance.2;
          pp_type := TokenType.Protocol;
          pp_tokens := underlyingTokenBalances |})
    (filter (fun protocolTokenBalance : string * Z =>
               protocolTokenBalance.2 ≠ 0)
            protocolTokensBalances).

(** *** Conversion rate *)

Record UnderlyingTokenRate : Type := {
  ur_token : Erc20Metadata;
  ur_type : TokenType.t;
  underlyingRateRaw : Z;
}.

Context `{JS : JsNumber.Exponentiation}.

(** [PRICE_PEGGED_TO_ONE * 10 ** decimals] is a [Number]; multiplying by
    [1] is exact. *)
Definition _getUnderlyingTokenConversionRate
    (protocolTokenMetadata : Erc20Metadata)
  : Result (list UnderlyingTokenRate) :=
  pm ← _fetchPoolMetadata (address protocolTokenMetadata);
  pricePerShareRaw ←
    JsNumber.BigInt (JsNumber.pow10 (decimals protocolTokenMetadata));
  Ok [ {| ur_token := underlyingToken pm;
          ur_type := TokenType.Underlying;
          underlyingRateRaw := pricePerShareRaw |} ].

Definition getProtocolTokenToUnderlyingTokenRate
  : Result (list UnderlyingTokenRate) := Err NotImplemented.

(** *** Movements *)

Record BaseTokenMovement : Type := {
  mv_token : Erc20Metadata;
  mv_transactionHash : string;
  movementValueRaw : Z;
}.

Record MovementsByBlock : Type := {
  mb_protocolToken : Erc20Metadata;
  underlyingTokensMovement : gmap string BaseTokenMovement;
  mb_blockNumber : Z;
}.

Record GetEventsInput : Type := {
  userAddress : string;
  protocolTokenAddress : string;
  fromBlock : Z;
  toBlock : Z;
}.

(** The [switch (eventType)] of [_getMovements]: it has no [default], so
    [filter] stays [undefined] for any other string. *)
Definition movementFilter (eventType user : string) : option EventFilter :=
  if String.eqb eventType "supplied" then Some (Supplied user)
  else if String.eqb eventType "collat-supplied"
    then Some (CollateralSupplied user)
  else if String.eqb eventType "withdrawn" then Some (Withdrawn user)
  else if String.eqb eventType "collat-withdrawn"
    then Some (CollateralWithdrawn user)
  else if String.eqb eventType "repaid" then Some (Repaid user)
  else if String.eqb eventType "borrowed" then Some (Borrowed user)
  else None.

(** The casts are the identity at run time; only the [default] branch has
    an effect. *)
Definition _castEventToLogType (event : EventLog) (eventType : string)
  : Result EventLog :=
  if String.eqb eventType "supplied" then Ok event
  else if String.eqb eventType "collat-supplied" then Ok event
  else if String.eqb eventType "withdrawn" then Ok event
  else if String.eqb eventType "collat-withdrawn" then Ok event
  else if String.eqb eventType "repaid" then Ok event
  else if String.eqb eventType "borrowed" then Ok event
  else Err InvalidEventType.

Definition _extractEventData (eventLog : EventLog) : option EventArgs :=
  args eventLog.

(** The callback [_getMovements] maps over the queried events; [None] is
    the [null] returned when the log carries no [args]. *)
Definition movementOfEvent (eventType : string) (event : EventLog)
  : Result (option MovementsByBlock) :=
  castedEvent ← _castEventToLogType event eventType;
  match _extractEventData castedEvent with
  | None => Ok None
  | Some eventData =>
      protocolToken ← _fetchProtocolTokenMetadata (underlying eventData);
      underlyingTokens ←
        _fetchUnderlyingTokensMetadata (underlying eventData);
      let underlyingTokensMovement :=
        foldl (fun acc underlyingToken =>
                 <[address underlyingToken :=
                     {| mv_token := underlyingToken;
                        mv_transactionHash := transactionHash event;
                        movementValueRaw := amount eventData |}]> acc)
              ∅ underlyingTokens in
      Ok (Some {| mb_protocolToken := protocolToken;
                  underlyingTokensMovement := underlyingTokensMovement;
                  mb_blockNumber := blockNumber event |})
  end.

Definition _getMovements (input : GetEventsInput) (eventType : string)
  : Result (list MovementsByBlock) :=
  let filter := movementFilter eventType (userAddress input) in
  eventResults ←
    queryFilter (protocolTokenAddress input) filter
      (fromBlock input) (toBlock input);
  movements ← promiseAll (movementOfEvent eventType) eventResults;
  Ok (omap (M := list) id movements).

Definition getWithdrawals (input : GetEventsInput) :=
  _getMovements input "withdrawn".

Definition getCollateralWithdrawals (input : GetEventsInput) :=
  _getMovements input "collat-withdrawn".

Definition getDeposits (input : GetEventsInput) :=
  _getMovements input (js_or "supplied" "collat-supplied").

Definition getCollateralDeposits (input : GetEventsInput) :=
  _getMovements input "collat-supplied".

Definition getBorrows (input : GetEventsInput) :=
  _getMovements input "borrowed".

Definition getRepays (input : GetEventsInput) :=
  _getMovements input "repaid".

(** *** Profits *)

(** Modelled from the spec: [core/utils/aggregateTrades] is not among the
    sources.  Aggregation of events is by summing raw amounts per token
    address. *)
Definition aggregateTrades (events : list MovementsByBlock) : gmap string Z :=
  foldl (fun acc event =>
           union_with (fun x y => Some (x + y)) acc
             (movementValueRaw <$> underlyingTokensMovement event))
        ∅ events.

(** Object spread of two dictionaries, [{ ...a, ...b }]: a key of [b]
    replaces the same key of [a]. *)
Definition spread {V} (a b : gmap string V) : gmap string V := b ∪ a.

(** An entry of the dictionary [formatProtocolTokenArrayToMap] returns. *)
Record PositionEntry : Type := {
  protocolTokenMetadata : Erc20Metadata;
  underlyingTokenPositions : gmap string Underlying;
}.

(** [core/utils/protocolTokenToMap] is not among the sources and the
    specification does not describe it: it is a parameter. *)
Variable formatProtocolTokenArrayToMap :
  list ProtocolPosition → gmap string PositionEntry.

(** The numeric part of [calculationData] in the returned object (the
    [formatUnits] renderings of the same four values are left out). *)
Record CalculationData : Type := {
  withdrawalsRaw : Z;
  depositsRaw : Z;
  startPositionValueRaw : Z;
  endPositionValueRaw : Z;
}.

Record UnderlyingProfit : Type := {
  up_token : Erc20Metadata;
  profitRaw : Z;
  up_type : TokenType.t;
  calculationData : CalculationData;
}.

Record ProtocolProfit : Type := {
  pf_token : Erc20Metadata;
  pf_type : TokenType.t;
  pf_tokens : list UnderlyingProfit;
}.

Record ProfitsWithRange : Type := {
  pr_tokens : list ProtocolProfit;
  pr_fromBlock : Z;
  pr_toBlock : Z;
}.

(** [eventsOut] and [eventsIn] of one protocol token. *)
Definition movementSums (getEventsInput : GetEventsInput)
  : Result (gmap string Z * gmap string Z) :=
  if decide (positionType this = Supply) then
    withdrawalEvents ← aggregateTrades <$> getWithdrawals getEventsInput;
    depositEvents ← aggregateTrades <$> getDeposits getEventsInput;
    collateralDepositEvents ←
      aggregateTrades <$> getCollateralDeposits getEventsInput;
    collateralWithdrawalEvents ←
      aggregateTrades <$> getCollateralWithdrawals getEventsInput;
    let eventsOut := spread withdrawalEvents collateralWithdrawalEvents in
    let eventsIn := spread depositEvents collateralDepositEvents in
    Ok (eventsOut, eventsIn)
  else
    eventsOut ← aggregateTrades <$> getBorrows getEventsInput;
    eventsIn ← aggregateTrades <$> getRepays getEventsInput;
    Ok (eventsOut, eventsIn).

(** The callback mapped over [Object.values(underlyingEndPositions)].
    [balanceRaw] is a [bigint], so [endPositionValueRaw ?? 0n] is
    [endPositionValueRaw]. *)
Definition underlyingProfit (startPositionValues : gmap string PositionEntry)
    (protocolTokenAddress : string) (eventsOut eventsIn : gmap string Z)
    (endPosition : Underlying) : UnderlyingProfit :=
  let address := address (u_token endPosition) in
  let endPositionValueRaw := u_balanceRaw endPosition in
  let startPositionValueRaw :=
    (entry ← startPositionValues !! protocolTokenAddress;
     position ← underlyingTokenPositions entry !! address;
     Some (u_balanceRaw position)) ?? 0 in
  let outRaw := (eventsOut !! address) ?? 0 in
  let inRaw := (eventsIn !! address) ?? 0 in
  let profitRaw :=
    endPositionValueRaw + outRaw - inRaw - startPositionValueRaw in
  let profitRaw :=
    if decide (positionType this = Borrow) then profitRaw * -1
    else profitRaw in
  {| up_token := u_token endPosition;
     profitRaw := profitRaw;
     up_type := TokenType.Underlying;
     calculationData :=
       {| withdrawalsRaw := (eventsOut !! address) ?? 0;
          depositsRaw := (eventsIn !! address) ?? 0;
          startPositionValueRaw := startPositionValueRaw;
          endPositionValueRaw := endPositionValueRaw |} |}.

Definition getProfits (userAddress : string) (fromBlock toBlock : Z)
  : Result ProfitsWithRange :=
  endPositionValues ←
    formatProtocolTokenArrayToMap <$> getPositions userAddress (Some toBlock);
  startPositionValues ←
    formatProtocolTokenArrayToMap
      <$> getPositions userAddress (Some fromBlock);
  tokens ←
    promiseAll (fun entry : PositionEntry =>
      let getEventsInput :=
        {| userAddress := userAddress;
           protocolTokenAddress := address (protocolTokenMetadata entry);
           fromBlock := fromBlock;
           toBlock := toBlock |} in
      events ← movementSums getEventsInput;
      Ok {| pf_token := protocolTokenMetadata entry;
            pf_type := TokenType.Protocol;
            pf_tokens :=
              underlyingProfit startPositionValues
                (address (protocolTokenMetadata entry)) events.1 events.2
                <$> (map_to_list (underlyingTokenPositions entry)).*2 |})
      (map_to_list endPositionValues).*2;
  Ok {| pr_tokens := tokens;
        pr_fromBlock := fromBlock;
        pr_toBlock := toBlock |}.

End MorphoBasePoolAdapter.

(** ** Token metadata resolution ([core/utils/getTokenMetadata]) *)

Module TokenMetadata.

(** [s.toLowerCase()] on the ASCII letters; addresses are ASCII. *)
Definition lowerAscii (c : ascii) : ascii :=
  let n := N_of_ascii c in
  if ((65 <=? n) && (n <=? 90))%N then ascii_of_N (n + 32) else c.

Fixpoint toLowerCase (s : string) : string :=
  match s with
  | EmptyString => EmptyString
  | String c s' => String (lowerAscii c) (toLowerCase s')
  end.

(** [nativeToken[chainId]]: the fields spread after [address]. *)
Record NativeToken : Type := {
  nt_name : string;
  nt_symbol : string;
  nt_decimals : nat;
}.

Inductive StringField : Type := FieldName | FieldSymbol.

(** What the module reads from its environment: ethers' [getAddress]
    (checksum normalisation, throwing on a malformed address), the
    native-token tables of [./nativeTokens], the two JSON files behind
    [CHAIN_METADATA], and the ERC-20 calls made through the provider. *)
Class Env : Type := {
  getAddress : string → Result string;
  nativeTokenAddresses : list string;
  nativeToken : Chain.t → NativeToken;
  TOKEN_METADATA_ETHEREUM : gmap string Erc20Metadata;
  TOKEN_METADATA_ARBITRUM : gmap string Erc20Metadata;
  (* tokenContract[functionName]() *)
  callString : StringField → string → Result string;
  (* provider.call(...) decoded with decodeBytes32String *)
  callBytes32String : StringField → string → Result string;
  (* tokenContract.decimals(), through Number(...) *)
  callDecimals : string → Result nat;
  (* tokenContract.getAddress() *)
  contractGetAddress : string → Result string;
}.

(** The address literal is already in checksum form, which [getAddress]
    returns unchanged. *)
Definition REAL_ESTATE_TOKEN_METADATA : Erc20Metadata :=
  {| address := "0x6b8734ad31D42F5c05A86594314837C416ADA984";
     name := "Real Estate USD (REUSD)";
     symbol := "Real Estate USD (REUSD)";
     decimals := 18 |}.

Section getTokenMetadata.

Context `{E : Env}.

Definition CHAIN_METADATA (chainId : Chain.t)
  : option (gmap string Erc20Metadata) :=
  match chainId with
  | Chain.Ethereum => Some TOKEN_METADATA_ETHEREUM
  | Chain.Arbitrum => Some TOKEN_METADATA_ARBITRUM
  | _ => None
  end.

Definition fetchStringTokenData (tokenAddress : string)
    (functionName : StringField) : Result string :=
  match callString functionName tokenAddress with
  | Ok s => Ok s
  | Err BadData =>
      contractAddress ← contractGetAddress tokenAddress;
      callBytes32String functionName contractAddress
  | Err e => Err e
  end.

(** Every failure inside the [try] block is logged and turned into
    [undefined]. *)
Definition getOnChainTokenMetadata (tokenAddress : string)
    (chainId : Chain.t) : option Erc20Metadata :=
  let attempt :=
    name ← fetchStringTokenData tokenAddress FieldName;
    symbol ← fetchStringTokenData tokenAddress FieldSymbol;
    decimal ← callDecimals tokenAddress;
    contractAddress ← contractGetAddress tokenAddress;
    address ← getAddress contractAddress;
    Ok {| address := address;
          name := name;
          symbol := symbol;
          decimals := decimal |} in
  match attempt with
  | Ok onChainTokenMetadata => Some onChainTokenMetadata
  | Err _ => None
  end.

(** The entry of the static file for this token, if any:
    [CHAIN_METADATA[chainId]?.[tokenAddress.toLowerCase()]]. *)
Definition fileTokenMetadata (tokenAddress : string) (chainId : Chain.t)
  : option Erc20Metadata :=
  fileMetadata ← CHAIN_METADATA chainId;
  fileMetadata !! toLowerCase tokenAddress.

Definition getTokenMetadata (tokenAddress : string) (chainId : Chain.t)
  : Result Erc20Metadata :=
  checksummed ← getAddress tokenAddress;
  if bool_decide (checksummed = address REAL_ESTATE_TOKEN_METADATA
                  ∧ chainId = Chain.Ethereum)
  then Ok REAL_ESTATE_TOKEN_METADATA
  else if bool_decide (tokenAddress ∈ nativeTokenAddresses)
  then
    address ← getAddress tokenAddress;
    Ok {| address := address;
          name := nt_name (nativeToken chainId);
          symbol := nt_symbol (nativeToken chainId);
          decimals := nt_decimals (nativeToken chainId) |}
  else
    match fileTokenMetadata tokenAddress chainId with
    | Some fileTokenMetadata =>
        address ← getAddress (address fileTokenMetadata);
        Ok {| address := address;
              name := name fileTokenMetadata;
              symbol := symbol fileTokenMetadata;
              decimals := decimals fileTokenMetadata |}
    | None =>
        match getOnChainTokenMetadata tokenAddress chainId with
        | Some onChainTokenMetadata => Ok onChainTokenMetadata
        | None => Err TokenMetadataNotFound
        end
    end.

End getTokenMetadata.

End TokenMetadata.

(** ** Uniform views over the position type

    The two branches of [getTotalValueLocked] and of [_getProtocolTokenApr]
    differ only in the side they read; these selectors name the side chosen
    by the position type, the [else] branch serving every type other than
    [Supply]. *)

Section Sides.

Context `{IRM : P2PInterestRates}.

Definition sideDelta (pt : PositionType) (m : Market) : MarketSideDelta :=
  match pt with Supply => supply (deltas m) | _ => borrow (deltas m) end.

Definition sideIndex (pt : PositionType) (ix : P2PIndexes) : Z :=
  match pt with Supply => newP2PSupplyIndex ix | _ => newP2PBorrowIndex ix end.

Definition sidePoolIndex (pt : PositionType) (rd : ReserveData) : Z :=
  match pt with Supply => liquidityIndex rd | _ => variableBorrowIndex rd end.

Definition poolRate (pt : PositionType) (rd : ReserveData) : Z :=
  match pt with
  | Supply => currentLiquidityRate rd
  | _ => currentVariableBorrowRate rd
  end.

(** The amount matched peer-to-peer: [supplyInP2P] or [borrowInP2P]. *)
Definition inP2P (pt : PositionType) (m : Market) (ix : P2PIndexes) : Z :=
  MorphoAaveMath.indexMul (scaledP2PTotal (sideDelta pt m)) (sideIndex pt ix).

(** [p2pSupplyRate] or [p2pBorrowRate]. *)
Definition p2pRate (pt : PositionType) (m : Market) (rd : ReserveData)
    (pI : Z) (ix : P2PIndexes) : Result Z :=
  let params :=
    {| rp_p2pIndex := sideIndex pt ix;
       rp_proportionIdle := pI;
       rp_p2pIndexCursor := p2pIndexCursor m;
       rp_reserveFactor := reserveFactor m;
       rp_delta := sideDelta pt m;
       rp_poolBorrowRatePerYear := currentVariableBorrowRate rd;
       rp_poolSupplyRatePerYear := currentLiquidityRate rd;
       rp_poolIndex := sidePoolIndex pt rd |} in
  match pt with
  | Supply => computeP2PSupplyRatePerYear params
  | _ => computeP2PBorrowRatePerYear params
  end.

End Sides.

(** ** Sample environments *)

(** An interest-rate model that answers with fixed indexes and rates. *)
Definition fixedRates (ix : P2PIndexes) (supplyRate borrowRate : Z)
  : P2PInterestRates :=
  {| computeP2PIndexes := fun _ => Ok ix;
     computeP2PSupplyRatePerYear := fun _ => Ok supplyRate;
     computeP2PBorrowRatePerYear := fun _ => Ok borrowRate |}.

Definition sampleMarket (idle supplyP2PTotal borrowP2PTotal : Z) : Market :=
  {| idleSupply := idle;
     indexes :=
       {| supplyIndexes := {| poolIndex := RayMath.RAY; p2pIndex := RayMath.RAY |};
          borrowIndexes := {| poolIndex := RayMath.RAY; p2pIndex := RayMath.RAY |} |};
     deltas :=
       {| supply := {| scaledDelta := 0; scaledP2PTotal := supplyP2PTotal |};
          borrow := {| scaledDelta := 0; scaledP2PTotal := borrowP2PTotal |} |};
     p2pIndexCursor := 5000;
     reserveFactor := 1000;
     aToken := "aToken";
     variableDebtToken := "variableDebtToken" |}.

Definition sampleReserve : ReserveData :=
  {| currentLiquidityRate := 3 * 10 ^ 25;
     currentVariableBorrowRate := 5 * 10 ^ 25;
     liquidityIndex := RayMath.RAY;
     variableBorrowIndex := RayMath.RAY;
     aTokenAddress := "aToken" |}.

(** Indexes of 1.1 ray on both sides. *)
Definition sampleIndexes : P2PIndexes :=
  {| newP2PSupplyIndex := 11 * 10 ^ 26; newP2PBorrowIndex := 11 * 10 ^ 26 |}.

Definition sampleRates : P2PInterestRates :=
  fixedRates sampleIndexes (4 * 10 ^ 25) (45 * 10 ^ 24).

(** A chain whose market, reserve data and pool-held balance are fixed,
    whose user balances depend on the block only, and whose logs depend on
    the filter only. *)
Definition sampleChain (m : Market) (rd : ReserveData) (onPool : Z)
    (supplied collateral borrowed : option Z → Z)
    (logs : option EventFilter → list EventLog) : ChainReader :=
  {| market := fun _ _ => Ok m;
     getReserveData := fun _ _ => Ok rd;
     balanceOf := fun _ _ _ => Ok onPool;
     supplyBalance := fun _ _ block => Ok (supplied block);
     collateralBalance := fun _ _ block => Ok (collateral block);
     borrowBalance := fun _ _ block => Ok (borrowed block);
     queryFilter := fun _ filter _ _ => Ok (logs filter) |}.

Definition aWETH : Erc20Metadata :=
  {| address := "aWETH"; name := "Aave WETH"; symbol := "aWETH";
     decimals := 18 |}.

Definition WETH : Erc20Metadata :=
  {| address := "WETH"; name := "Wrapped Ether"; symbol := "WETH";
     decimals := 18 |}.

(** An adapter with the single market aWETH / WETH. *)
(** A sample engine, whose exponentiation is correctly rounded: exact up to
    [10^22], the nearest double beyond.  It is used below for exponents up
    to 23 only. *)
Definition roundingEngine : JsNumber.Exponentiation :=
  {| JsNumber.pow10 d := JsNumber.roundToDouble (10 ^ Z.of_nat d) |}.

Definition sampleAdapter (pt : PositionType) : Adapter :=
  {| protocolId := "morpho-aave-v3";
     chainId := Chain.Ethereum;
     positionType := pt;
     morphoAddress := "0x33333aea097c193e66081e930c33020272b33333";
     metadata := {[ "aWETH" := {| protocolToken := aWETH;
                                  underlyingToken := WETH |} ]} |}.

(** A straightforward reading of [formatProtocolTokenArrayToMap]: positions
    keyed by protocol-token address, their underlying balances keyed by
    underlying-token address.  It only instantiates the parameter of
    [getProfits] in the examples. *)
Definition sampleFormat (positions : list ProtocolPosition)
  : gmap string PositionEntry :=
  list_to_map
    ((fun p : ProtocolPosition =>
        (address (pp_token p),
         {| protocolTokenMetadata := pp_token p;
            underlyingTokenPositions :=
              list_to_map
                ((fun u : Underlying => (address (u_token u), u))
                   <$> pp_tokens p) |}))
       <$> positions).

(** A movement log of the market of [sampleAdapter].  [_getMovements] looks
    the pool up under [args.underlying], and the pools are keyed by
    protocol-token address. *)
Definition sampleLog (value : Z) : EventLog :=
  {| args := Some {| underlying := "aWETH"; amount := value |};
     transactionHash := "0xabc";
     blockNumber := 15 |}.

(** A chain reader that answers [CollateralSupplied] queries from [logs]
    and every other call as [CR] does. *)
Definition withCollateralSuppliedLogs (CR : ChainReader)
    (logs : string → string → Z → Z → Result (list EventLog)) : ChainReader :=
  {| market := market;
     getReserveData := getReserveData;
     balanceOf := balanceOf;
     supplyBalance := supplyBalance;
     collateralBalance := collateralBalance;
     borrowBalance := borrowBalance;
     queryFilter := fun contract filter fromBlock toBlock =>
       match filter with
       | Some (CollateralSupplied user) => logs contract user fromBlock toBlock
       | _ => queryFilter contract filter fromBlock toBlock
       end |}.

(** The factor applied to the profit of a position: [-1] for a borrow
    adapter. *)
Definition profitSign (pt : PositionType) : Z :=
  match pt with Borrow => -1 | _ => 1 end.

(** [startPositionValues[protocolToken]?.underlyingTokenPositions[address]
    ?.balanceRaw], before the [?? 0n]. *)
Definition startPositionValue (startPositionValues : gmap string PositionEntry)
    (protocolTokenAddress address : string) : option Z :=
  entry ← startPositionValues !! protocolTokenAddress;
  position ← underlyingTokenPositions entry !! address;
  Some (u_balanceRaw position).

(** The scenario of the specification: a supply position of 200 at block 10
    and of 320 at block 20, deposits of 100 and 50 and a withdrawal of 30 in
    between. *)
Definition scenarioChain : ChainReader :=
  sampleChain (sampleMarket 0 1000 0) sampleReserve 500
    (fun block => if decide (block = Some 10) then 200 else 320)
    (fun _ => 0) (fun _ => 0)
    (fun filter =>
       match filter with
       | Some (Supplied _) => [sampleLog 100; sampleLog 50]
       | Some (Withdrawn _) => [sampleLog 30]
       | _ => []
       end).

(** A user who supplied 100 and supplied 50 as collateral between blocks 10
    and 20, starting from nothing. *)
Definition collateralChain : ChainReader :=
  sampleChain (sampleMarket 0 1000 0) sampleReserve 500
    (fun block => if decide (block = Some 10) then 0 else 100)
    (fun block => if decide (block = Some 10) then 0 else 50)
    (fun _ => 0)
    (fun filter =>
       match filter with
       | Some (Supplied _) => [sampleLog 100]
       | Some (CollateralSupplied _) => [sampleLog 50]
       | _ => []
       end).

(** [buildMetadata] files every pool under the address of its protocol
    token ([metadataObject[protocolToken.address] = ...]). *)
Definition keyedByProtocolToken (md : gmap string PoolMetadata) : Prop :=
  ∀ (k : string) (pm : PoolMetadata),
    md !! k = Some pm → address (protocolToken pm) = k.

(** *** A sample environment for metadata resolution *)

Definition WETH_ADDRESS : string := "0xC02aaA39b223FE8D0A0e5C4F27eAD9083C756Cc2".

(** The address of WETH with the case of its first letter changed: the
    checksum no longer matches, so [getAddress] rejects it. *)
Definition WETH_BAD_CHECKSUM : string :=
  "0xc02aaA39b223FE8D0A0e5C4F27eAD9083C756Cc2".

Definition NATIVE_ADDRESS : string := "0xEeeeeEeeeEeEeeEeEeEeeEEEeeeeEeeeeeeeEEeE".

(** [getAddress] on the addresses of the examples: a string that is not 42
    characters long is rejected; WETH is accepted in lower case and in its
    checksum form and rejected in any other mix of cases; every other
    address is taken to be in checksum form already. *)
Definition sampleGetAddress (s : string) : Result string :=
  if negb (Nat.eqb (String.length s) 42) then Err InvalidAddress
  else if String.eqb (TokenMetadata.toLowerCase s)
            (TokenMetadata.toLowerCase WETH_ADDRESS)
  then if String.eqb s WETH_ADDRESS
          || String.eqb s (TokenMetadata.toLowerCase s)
       then Ok WETH_ADDRESS else Err InvalidAddress
  else Ok s.

(** The Ethereum file knows WETH and, under another name, the REUSD token;
    on chain every contract answers as a 6-decimals token when [online] and
    fails to answer [decimals()] otherwise. *)
Definition sampleEnv (online : bool) : TokenMetadata.Env :=
  {| TokenMetadata.getAddress := sampleGetAddress;
     TokenMetadata.nativeTokenAddresses := [NATIVE_ADDRESS];
     TokenMetadata.nativeToken := fun _ =>
       {| TokenMetadata.nt_name := "Ether";
          TokenMetadata.nt_symbol := "ETH";
          TokenMetadata.nt_decimals := 18 |};
     TokenMetadata.TOKEN_METADATA_ETHEREUM :=
       {[ TokenMetadata.toLowerCase WETH_ADDRESS :=
            {| address := TokenMetadata.toLowerCase WETH_ADDRESS;
               name := "Wrapped Ether"; symbol := "WETH"; decimals := 18 |};
          TokenMetadata.toLowerCase
            (address TokenMetadata.REAL_ESTATE_TOKEN_METADATA) :=
            {| address := address TokenMetadata.REAL_ESTATE_TOKEN_METADATA;
               name := "Cached REUSD"; symbol := "REUSD"; decimals := 18 |} ]};
     TokenMetadata.TOKEN_METADATA_ARBITRUM := ∅;
     TokenMetadata.callString := fun field _ =>
       match field with
       | TokenMetadata.FieldName => Ok "USD Coin"
       | TokenMetadata.FieldSymbol => Ok "USDC"
       end;
     TokenMetadata.callBytes32String := fun _ _ => Err UpstreamReadFailure;
     TokenMetadata.callDecimals := fun _ =>
       if online then Ok 6%nat else Err UpstreamReadFailure;
     TokenMetadata.contractGetAddress := fun a => Ok a |}.

Definition USDC_ADDRESS : string := "0xA0b86991c6218b36c1d19D4a2e9Eb0cE3606eB48".

(** A chain on which the state of no market can be read. *)
Definition unreadableMarketChain : ChainReader :=
  {| market := fun _ _ => Err UpstreamReadFailure;
     getReserveData := fun _ _ => Ok sampleReserve;
     balanceOf := fun _ _ _ => Ok 0;
     supplyBalance := fun _ _ _ => Ok 0;
     collateralBalance := fun _ _ _ => Ok 0;
     borrowBalance := fun _ _ _ => Ok 0;
     queryFilter := fun _ _ _ _ => Ok [] |}.

(** A user who held 200 at block 10, withdrew them, and holds nothing at
    block 20. *)
Definition closedPositionChain : ChainReader :=
  sampleChain (sampleMarket 0 1000 0) sampleReserve 500
    (fun block => if decide (block = Some 10) then 200 else 0)
    (fun _ => 0) (fun _ => 0)
    (fun filter =>
       match filter with
       | Some (Withdrawn _) => [sampleLog 200]
       | _ => []
       end).

(** A chain that answers every log query, whatever the filter, with one
    log, and a log without arguments. *)
Definition oneLogChain : ChainReader :=
  sampleChain (sampleMarket 0 1000 0) sampleReserve 500
    (fun _ => 0) (fun _ => 0) (fun _ => 0) (fun _ => [sampleLog 7]).

Definition bareLog : EventLog :=
  {| args := None; transactionHash := "0xdef"; blockNumber := 16 |}.

Definition sampleInput : GetEventsInput :=
  {| userAddress := "user"; protocolTokenAddress := "aWETH";
     fromBlock := 10; toBlock := 20 |}.

(** The position [getPositions] returns for the market of [sampleAdapter]
    when the user holds [b]. *)
Definition samplePosition (b : Z) : ProtocolPosition :=
  {| pp_token := aWETH;
     pp_balance := b;
     pp_balanceRaw := b;
     pp_type := TokenType.Protocol;
     pp_tokens := [ {| u_token := WETH; u_balanceRaw := b;
                       u_type := TokenType.Underlying |} ] |}.

(** A chain whose log queries return two logs with arguments around one
    without. *)
Definition mixedLogChain : ChainReader :=
  sampleChain (sampleMarket 0 1000 0) sampleReserve 500
    (fun _ => 0) (fun _ => 0) (fun _ => 0)
    (fun _ => [sampleLog 100; bareLog; sampleLog 50]).

(** ** Building the metadata ([MorphoBasePoolAdapter.buildMetadata]) *)

(** The two reads of [buildMetadata] beside [pool.getReserveData]:
    [morphoAaveV3Contract.marketsCreated()] and
    [aTokenContract.UNDERLYING_ASSET_ADDRESS()], the latter as a function of
    the aToken address. *)
Class MarketsReader : Type := {
  marketsCreated : Result (list string);
  UNDERLYING_ASSET_ADDRESS : string → Result string;
}.

Section MetadataBuilder.

Context `{CR : ChainReader} `{MR : MarketsReader} `{E : TokenMetadata.Env}.
Variable (this : Adapter).

(** [core/constants/ZERO_ADDRESS] is not among the sources. *)
Variable ZERO_ADDRESS : string.

(** The pool a market contributes: the callback mapped over [markets].  A
    rejected [UNDERLYING_ASSET_ADDRESS()] carries an error object, which is
    truthy, so the [catch] handler answers [ZERO_ADDRESS]. *)
Definition marketMetadata (marketAddress : string) : Result PoolMetadata :=
  if decide (positionType this = Borrow) then
    protocolToken ←
      TokenMetadata.getTokenMetadata
        "0x4d5f47fa6a74757f35c14fd3a6ef8e3c9bc514e8" (chainId this);
    underlyingToken ←
      TokenMetadata.getTokenMetadata
        "0xc02aaa39b223fe8d0a0e5c4f27ead9083c756cc2" (chainId this);
    Ok {| protocolToken := protocolToken; underlyingToken := underlyingToken |}
  else
    reserveData ← getReserveData marketAddress None;
    let aTokenAddress := aTokenAddress reserveData in
    let supplyTokenAddress :=
      match UNDERLYING_ASSET_ADDRESS aTokenAddress with
      | Ok a => a
      | Err _ => ZERO_ADDRESS
      end in
    protocolToken ←
      TokenMetadata.getTokenMetadata aTokenAddress (chainId this);
    underlyingToken ←
      TokenMetadata.getTokenMetadata supplyTokenAddress (chainId this);
    Ok {| protocolToken := protocolToken; underlyingToken := underlyingToken |}.

(** [metadataObject] once every market has been processed.  The callbacks
    run concurrently and each files its pool under
    [protocolToken.address]; they are taken here in the order of
    [markets]. *)
Definition metadataObject : Result (gmap string PoolMetadata) :=
  markets ← marketsCreated;
  pools ← promiseAll marketMetadata markets;
  Ok (foldl (fun acc pool => <[address (protocolToken pool) := pool]> acc)
            ∅ pools).

(** [buildMetadata] with [_metadataCache] as explicit state: the result and
    the cache afterwards.  A cached object, even an empty one, is truthy and
    is returned as it is; a failed build leaves the cache as it was. *)
Definition buildMetadataCached
    (_metadataCache : option (gmap string PoolMetadata))
  : Result (gmap string PoolMetadata * option (gmap string PoolMetadata)) :=
  match _metadataCache with
  | Some cached => Ok (cached, _metadataCache)
  | None =>
      metadataObject ← metadataObject;
      Ok (metadataObject, Some metadataObject)
  end.

End MetadataBuilder.

(** The adapter once [buildMetadata] has returned [md]. *)
Definition withMetadata (this : Adapter) (md : gmap string PoolMetadata)
  : Adapter :=
  {| protocolId := protocolId this;
     chainId := chainId this;
     positionType := positionType this;
     morphoAddress := morphoAddress this;
     metadata := md |}.

(** Two markets; the aToken of the second does not expose its underlying
    asset. *)
Definition sampleMarkets : MarketsReader :=
  {| marketsCreated := Ok [WETH_ADDRESS; USDC_ADDRESS];
     UNDERLYING_ASSET_ADDRESS := fun _ => Err UpstreamReadFailure |}.

Definition SAMPLE_ZERO_ADDRESS : string :=
  "0x0000000000000000000000000000000000000000".

Definition AWETH_ADDRESS : string := "0x4d5F47FA6A74757f35C14fD3a6Ef8E3C9BC514E8".

(** A chain whose pool reports the aToken of every reserve at
    [AWETH_ADDRESS]. *)
Definition metadataChain : ChainReader :=
  sampleChain (sampleMarket 0 1000 0)
    {| currentLiquidityRate := 3 * 10 ^ 25;
       currentVariableBorrowRate := 5 * 10 ^ 25;
       liquidityIndex := RayMath.RAY;
       variableBorrowIndex := RayMath.RAY;
       aTokenAddress := AWETH_ADDRESS |}
    500 (fun _ => 320) (fun _ => 0) (fun _ => 0) (fun _ => []).

(** ** The earlier [getTokenMetadata] (the module with [getThinTokenMetadata]) *)

Module LegacyTokenMetadata.

(** Its [Erc20Metadata] has an optional [iconUrl] beside the four fields. *)
Record IconMetadata : Type := {
  token : Erc20Metadata;
  iconUrl : option string;
}.

(** The outcome of a contract call, as far as the module tells outcomes
    apart: [isCallExceptionCodeError] singles out the errors whose [code] is
    ['CALL_EXCEPTION']. *)
Inductive CallResult (A : Type) : Type :=
| Returned (a : A)
| CallException
| OtherFailure.
Arguments Returned {A} a.
Arguments CallException {A}.
Arguments OtherFailure {A}.

(** A provider, through the calls made on it; [rawCall to data] is
    [provider.call({to, data})] decoded with [decodeBytes32String]. *)
Record Provider : Type := {
  callName : string → CallResult string;
  callSymbol : string → CallResult string;
  callDecimals : string → CallResult nat;
  contractGetAddress : string → CallResult string;
  rawCall : string → string → CallResult string;
}.

(** The two JSON files and [chainProviders]. *)
Class Env : Type := {
  TOKEN_METADATA_ETHEREUM : gmap string IconMetadata;
  TOKEN_METADATA_ARBITRUM : gmap string IconMetadata;
  chainProviders : Chain.t → option Provider;
}.

Section getTokenMetadata.

Context `{E : Env}.

Definition CHAIN_METADATA (chainId : Chain.t)
  : option (gmap string IconMetadata) :=
  match chainId with
  | Chain.Ethereum => Some TOKEN_METADATA_ETHEREUM
  | Chain.Arbitrum => Some TOKEN_METADATA_ARBITRUM
  | _ => None
  end.

(** [getTokenName] and [getTokenSymbol] differ in the call and in the
    selector only. *)
Definition stringWithBytes32Fallback (provider : Provider)
    (call : string → CallResult string) (selector : string)
    (tokenAddress : string) : CallResult string :=
  match call tokenAddress with
  | Returned s => Returned s
  | CallException =>
      match contractGetAddress provider tokenAddress with
      | Returned contractAddress => rawCall provider contractAddress selector
      | CallException => CallException
      | OtherFailure => OtherFailure
      end
  | OtherFailure => OtherFailure
  end.

Definition getTokenName (provider : Provider) (tokenAddress : string) :=
  stringWithBytes32Fallback provider (callName provider) "0x06fdde03"
    tokenAddress.

Definition getTokenSymbol (provider : Provider) (tokenAddress : string) :=
  stringWithBytes32Fallback provider (callSymbol provider) "0x95d89b41"
    tokenAddress.

Definition getOnChainTokenMetadata (tokenAddress : string) (chainId : Chain.t)
  : option IconMetadata :=
  match chainProviders chainId with
  | None => None
  | Some provider =>
      match getTokenName provider tokenAddress,
            getTokenSymbol provider tokenAddress,
            callDecimals provider tokenAddress,
            contractGetAddress provider tokenAddress with
      | Returned name, Returned symbol, Returned decimals,
        Returned contractAddress =>
          Some {| token :=
                    {| address := TokenMetadata.toLowerCase contractAddress;
                       name := name;
                       symbol := symbol;
                       decimals := decimals |};
                  iconUrl := None |}
      | _, _, _, _ => None
      end
  end.

Definition getTokenMetadata (tokenAddress : string) (chainId : Chain.t)
  : Result IconMetadata :=
  match fileMetadata ← CHAIN_METADATA chainId; fileMetadata !! tokenAddress with
  | Some fileTokenMetadata => Ok fileTokenMetadata
  | None =>
      match getOnChainTokenMetadata tokenAddress chainId with
      | Some onChainTokenMetadata => Ok onChainTokenMetadata
      | None => Err TokenMetadataNotFound
      end
  end.

(** [const { iconUrl: _, ...token } = await getTokenMetadata(...)]. *)
Definition getThinTokenMetadata (tokenAddress : string) (chainId : Chain.t)
  : Result Erc20Metadata :=
  token <$> getTokenMetadata tokenAddress chainId.

End getTokenMetadata.

End LegacyTokenMetadata.

(** The Ethereum file knows WETH under its lower-cased address; only
    Ethereum has a provider, whose [name()] raises a call exception and is
    answered through the bytes32 call. *)
Definition legacyEnv : LegacyTokenMetadata.Env :=
  {| LegacyTokenMetadata.TOKEN_METADATA_ETHEREUM :=
       {[ TokenMetadata.toLowerCase WETH_ADDRESS :=
            {| LegacyTokenMetadata.token :=
                 {| address := TokenMetadata.toLowerCase WETH_ADDRESS;
                    name := "Wrapped Ether"; symbol := "WETH";
                    decimals := 18 |};
               LegacyTokenMetadata.iconUrl := Some "https://icons/weth.svg" |} ]};
     LegacyTokenMetadata.TOKEN_METADATA_ARBITRUM := ∅;
     LegacyTokenMetadata.chainProviders := fun chainId =>
       match chainId with
       | Chain.Ethereum =>
           Some {| LegacyTokenMetadata.callName := fun _ =>
                     LegacyTokenMetadata.CallException;
                   LegacyTokenMetadata.callSymbol := fun _ =>
                     LegacyTokenMetadata.Returned "MKR";
                   LegacyTokenMetadata.callDecimals := fun _ =>
                     LegacyTokenMetadata.Returned 18%nat;
                   LegacyTokenMetadata.contractGetAddress := fun a =>
                     LegacyTokenMetadata.Returned a;
                   LegacyTokenMetadata.rawCall := fun _ _ =>
                     LegacyTokenMetadata.Returned "Maker" |}
       | _ => None
       end |}.

Definition MKR_ADDRESS : string := "0x9f8F72aA9304c8B593d555F12eF6589cC3A579A2".

(** ** Command-line filters ([protocolFilter]) *)

Module Filters.

(** The [Protocol] object, as [Object.entries] enumerates it: key and
    protocol id, in the order of the declaration. *)
Definition Protocol : list (string * string) :=
  [ ("AaveV2", "aave-v2"); ("AaveV3", "aave-v3");
    ("AngleProtocol", "angle-protocol"); ("CarbonDeFi", "carbon-defi");
    ("ChimpExchange", "chimp-exchange"); ("CompoundV2", "compound-v2");
    ("Convex", "convex"); ("Curve", "curve"); ("Ethena", "ethena");
    ("Flux", "flux"); ("Gmx", "gmx"); ("IZiSwap", "iziswap");
    ("Lido", "lido"); ("Maker", "maker"); ("MendiFinance", "mendi-finance");
    ("MorphoAaveV2", "morpho-aave-v2"); ("MorphoAaveV3", "morpho-aave-v3");
    ("MorphoBlue", "morpho-blue"); ("MorphoCompoundV2", "morpho-compound-v2");
    ("PancakeswapV2", "pancakeswap-v2"); ("PricesV2", "prices-v2");
    ("QuickswapV2", "quickswap-v2"); ("RocketPool", "rocket-pool");
    ("Sonne", "sonne"); ("StakeWise", "stakewise"); ("Stargate", "stargate");
    ("SushiswapV2", "sushiswap-v2"); ("Swell", "swell");
    ("SyncSwap", "syncswap"); ("TanxFinance", "tanx-finance");
    ("UniswapV2", "uniswap-v2"); ("UniswapV3", "uniswap-v3");
    ("Xfai", "xfai") ]%string.

(** The white space [trim] removes, among the ASCII characters: tab, line
    feed, vertical tab, form feed, carriage return and space.  Strings are
    taken to be ASCII, here and in [toLowerCase]. *)
Definition isSpace (c : ascii) : bool :=
  let n := N_of_ascii c in
  ((9 <=? n) && (n <=? 13) || (n =? 32))%N.

Fixpoint trimStart (s : string) : string :=
  match s with
  | EmptyString => EmptyString
  | String c s' => if isSpace c then trimStart s' else s
  end.

Fixpoint trimEnd (s : string) : string :=
  match s with
  | EmptyString => EmptyString
  | String c s' =>
      match trimEnd s' with
      | EmptyString => if isSpace c then EmptyString else String c EmptyString
      | t => String c t
      end
  end.

Definition trim (s : string) : string := trimEnd (trimStart s).

Fixpoint isAscii (s : string) : bool :=
  match s with
  | EmptyString => true
  | String c s' => (N_of_ascii c <? 128)%N && isAscii s'
  end.

(** [filterValues.includes(value)]. *)
Definition includes (filterValues : list string) (value : string) : bool :=
  existsb (String.eqb value) filterValues.

(** What a filter function does: return a value, return [undefined], or
    throw an [Error] with a message. *)
Inductive Outcome : Type :=
| Found (id : string)
| Undefined
| Thrown (message : string).

(** [filterInput] is optional; [!filterInput] holds for [undefined] and for
    the empty string, and [!protocolId] for an empty id. *)
Definition protocolFilter (filterInput : option string) : Outcome :=
  match filterInput with
  | None => Undefined
  | Some filterInput =>
      if negb (truthy filterInput) then Undefined
      else
        let entry :=
          List.find
            (fun entry : string * list string =>
               includes entry.2
                 (TokenMetadata.toLowerCase (trim filterInput)))
            ((fun '(protocolKey, protocolId) =>
                (protocolId,
                 [protocolId; TokenMetadata.toLowerCase protocolKey]))
               <$> Protocol) in
        match entry with
        | Some (protocolId, _) =>
            if truthy protocolId then Found protocolId
            else Thrown ("No protocol matches the given filter: "
                         +:+ filterInput)
        | None =>
            Thrown ("No protocol matches the given filter: " +:+ filterInput)
        end
  end.

End Filters.

(** ** Keys of the metadata files ([metadataKey]) *)

(** [`${protocolId}.${productId}.${chainId}.${fileKey}`]; a chain id is a
    number, rendered in decimal. *)
Definition metadataKey (protocolId productId : string) (chainId : N)
    (fileKey : string) : string :=
  protocolId +:+ "." +:+ productId +:+ "." +:+ pretty chainId +:+ "."
  +:+ fileKey.

(** No character of the string is a dot. *)
Fixpoint noDot (s : string) : bool :=
  match s with
  | EmptyString => true
  | String c s' => negb (Ascii.eqb c ".") && noDot s'
  end.

(** ** The Curve staking adapter ([CurveStakingAdapter]) *)

Module CurveStaking.

Record StakingPoolMetadata : Type := {
  protocolToken : Erc20Metadata;
  underlyingTokens : list Erc20Metadata;
}.

(** What [getPoolData] yields for a pool, as far as [buildMetadata] reads
    it: the LP token of the pool and, if there is one, its staking token. *)
Record PoolData : Type := {
  lpToken : Erc20Metadata;            (* token.protocolToken *)
  stakingToken : option string;
}.

(** A call either returns or throws: what a collaborator raised, the
    'Protocol token pool not found' of [fetchPoolMetadata] included, or the
    [TypeError] of reading through a value asserted non-null that is
    [undefined]. *)
Inductive Failure : Type :=
| Raised (e : Error)
| NullDereference.

Inductive Outcome (A : Type) : Type :=
| Done (a : A)
| Failed (f : Failure).
Arguments Done {A} a.
Arguments Failed {A} f.

(** The pool adapter the staking adapter holds: the [tokens] of the rate
    it reports for an LP token, which may be [undefined]. *)
Class PoolAdapter : Type := {
  getProtocolTokenToUnderlyingTokenRate :
    string → option Z → Result (option (list UnderlyingTokenRate));
}.

(** The underlying token of a staked position, with the LP token's own
    underlying tokens below it. *)
Record StakedUnderlying : Type := {
  su_token : Erc20Metadata;
  su_type : TokenType.t;
  su_balanceRaw : Z;
  su_tokens : list Underlying;
}.

(** The entry the callback of [buildMetadata] files for a pool, under the
    address of the staking token; a pool that was not found, or has no
    staking token (an empty address is falsy, as [undefined] is), files
    nothing. *)
Definition poolEntry (token : option PoolData)
  : option (string * StakingPoolMetadata) :=
  match token with
  | None => None
  | Some token =>
      match stakingToken token with
      | None => None
      | Some staking =>
          if negb (truthy staking) then None
          else
            Some (staking,
                  {| protocolToken :=
                       {| address := staking;
                          name := name (lpToken token);
                          symbol := symbol (lpToken token);
                          decimals := decimals (lpToken token) |};
                     underlyingTokens := [lpToken token] |})
      end
  end.

(** [metadata] at the end of [buildMetadata], from the [results] of
    [getPoolData] over all pool indexes; the callback is run on each result
    in turn. *)
Definition buildMetadata (results : list (option PoolData))
  : gmap string StakingPoolMetadata :=
  foldl (fun metadata token =>
           match poolEntry token with
           | Some (staking, pool) => <[staking := pool]> metadata
           | None => metadata
           end)
        ∅ results.

Section Adapter.

Context `{PA : PoolAdapter}.
Variable (metadata : gmap string StakingPoolMetadata).

Definition fetchPoolMetadata (protocolTokenAddress : string)
  : Outcome StakingPoolMetadata :=
  match metadata !! protocolTokenAddress with
  | Some poolMetadata => Done poolMetadata
  | None => Failed (Raised PoolNotFound)
  end.

(** [balanceRaw * underlyingRateRaw / 10n ** BigInt(decimals)]: [bigint]
    division truncates. *)
Definition underlyingShare (protocolTokenBalance : TokenBalance)
    (underlying : UnderlyingTokenRate) : Underlying :=
  {| u_token := ur_token underlying;
     u_balanceRaw :=
       Z.quot (tb_balanceRaw protocolTokenBalance * underlyingRateRaw underlying)
              (10 ^ Z.of_nat (decimals (tb_token protocolTokenBalance)));
     u_type := TokenType.Underlying |}.

Definition getUnderlyingTokenBalances (protocolTokenBalance : TokenBalance)
    (blockNumber : option Z) : Outcome (list StakedUnderlying) :=
  match fetchPoolMetadata (address (tb_token protocolTokenBalance)) with
  | Failed f => Failed f
  | Done pool =>
      match underlyingTokens pool with
      | [] => Failed NullDereference
      | underlyingToken :: _ =>
          match getProtocolTokenToUnderlyingTokenRate
                  (address underlyingToken) blockNumber with
          | Err e => Failed (Raised e)
          | Ok None => Failed NullDereference
          | Ok (Some tokens) =>
              Done [ {| su_token := underlyingToken;
                        su_type := TokenType.Underlying;
                        su_balanceRaw := tb_balanceRaw protocolTokenBalance;
                        su_tokens :=
                          underlyingShare protocolTokenBalance <$> tokens |} ]
          end
      end
  end.

End Adapter.

End CurveStaking.

(** A 3pool-like LP token whose unit is worth 0.4 DAI and 0.6 USDC, up to
    the decimals of the LP token. *)
Definition sampleLp : Erc20Metadata :=
  {| address := "0xLP"; name := "Curve 3pool"; symbol := "3Crv";
     decimals := 18 |}.

Definition samplePoolAdapter : CurveStaking.PoolAdapter :=
  {| CurveStaking.getProtocolTokenToUnderlyingTokenRate := fun _ _ =>
       Ok (Some [ {| ur_token := WETH; ur_type := TokenType.Underlying;
                     underlyingRateRaw := 4 * 10 ^ 17 |};
                  {| ur_token := aWETH; ur_type := TokenType.Underlying;
                     underlyingRateRaw := 6 * 10 ^ 17 + 1 |} ]) |}.

Definition samplePools : list (option CurveStaking.PoolData) :=
  [ Some {| CurveStaking.lpToken := sampleLp;
            CurveStaking.stakingToken := Some "0xGAUGE" |};
    None;
    Some {| CurveStaking.lpToken := WETH;
            CurveStaking.stakingToken := None |} ].

(** * Properties *)

(** ** The result monad *)

Lemma bind_Ok {A B} (r : Result A) (f : A → Result B) (b : B) :
  r ≫= f = Ok b ↔ ∃ a, r = Ok a ∧ f a = Ok b.
Proof.
  destruct r as [a|e]; simpl.
  - split; [eauto | intros (a' & [= <-] & H); exact H].
  - split; [discriminate | intros (a' & [=] & _)].
Qed.

Lemma fmap_Ok {A B} (r : Result A) (f : A → B) (b : B) :
  f <$> r = Ok b ↔ ∃ a, r = Ok a ∧ b = f a.
Proof.
  destruct r as [a|e]; simpl.
  - split; [intros [= <-]; eauto | intros (a' & [= <-] & ->); reflexivity].
  - split; [discriminate | intros (a' & [=] & _)].
Qed.

Lemma promiseAll_Ok {A B} (f : A → Result B) (xs : list A) (ys : list B) :
  promiseAll f xs = Ok ys ↔ Forall2 (fun x y => f x = Ok y) xs ys.
Proof.
  revert ys; induction xs as [|x xs IH]; intros ys; simpl.
  - split.
    + intros [= <-]; constructor.
    + intros H; inversion H; reflexivity.
  - split.
    + intros H. apply bind_Ok in H as (y & Hy & H).
      apply bind_Ok in H as (ys' & Hys & [= <-]).
      constructor; [exact Hy | apply IH, Hys].
    + intros H; inversion H as [|? y ? ys' Hy Hys]; subst.
      rewrite Hy; simpl. apply IH in Hys. rewrite Hys; reflexivity.
Qed.

Lemma promiseAll_total {A B} (f : A → Result B) (P : B → Prop) (xs : list A) :
  Forall (fun x => ∃ y, f x = Ok y ∧ P y) xs →
  ∃ ys, promiseAll f xs = Ok ys ∧ Forall P ys.
Proof.
  induction 1 as [|x xs (y & Hy & HP) _ (ys & Hys & HPs)]; simpl.
  - exists []; split; [reflexivity | constructor].
  - exists (y :: ys). rewrite Hy; simpl. rewrite Hys; simpl.
    split; [reflexivity | constructor; assumption].
Qed.

Lemma Forall2_exists_l {A B} (R : A → B → Prop) (xs : list A) (ys : list B) :
  Forall2 R xs ys → Forall (fun y => ∃ x, x ∈ xs ∧ R x y) ys.
Proof.
  induction 1 as [|x y xs ys HR _ IH]; constructor.
  - exists x; split; [left | exact HR].
  - eapply Forall_impl; [exact IH|].
    intros y' (x' & Hin & HR'); exists x'; split; [right; exact Hin | exact HR'].
Qed.

(** ** Ray arithmetic *)

Lemma RAY_pos : 0 < RayMath.RAY.
Proof. reflexivity. Qed.

Lemma rayMul_0_l (b : Z) : RayMath.rayMul 0 b = 0.
Proof. reflexivity. Qed.

Lemma rayDiv_Ok (a b : Z) :
  b ≠ 0 → RayMath.rayDiv a b = Ok ((a * RayMath.RAY + b / 2) / b).
Proof.
  intros Hb. unfold RayMath.rayDiv.
  destruct (Z.eqb_spec b 0); [contradiction | reflexivity].
Qed.

Lemma rayDiv_Err (a b : Z) :
  RayMath.rayDiv a b = Err DivisionByZero ↔ b = 0.
Proof.
  unfold RayMath.rayDiv. destruct (Z.eqb_spec b 0); split; try done.
Qed.

(** ** Total value locked and APR *)

Section TvlApr.

Context `{IRM : P2PInterestRates}.

Import MorphoAaveMath.

Lemma proportionIdle_idle_zero (m : Market) :
  idleSupply m = 0 → proportionIdle m = Ok 0.
Proof. intros H. unfold proportionIdle. rewrite H. reflexivity. Qed.

(** The computation divides by zero exactly when there is idle supply and
    the peer-to-peer supply it is measured against rounds to nothing. *)
Lemma proportionIdle_division_by_zero (m : Market) :
  proportionIdle m = Err DivisionByZero
  ↔ idleSupply m ≠ 0
    ∧ indexMul (scaledP2PTotal (supply (deltas m)))
               (p2pIndex (supplyIndexes (indexes m))) = 0.
Proof.
  unfold proportionIdle, indexDiv, RayMath.rayDiv.
  destruct (Z.eqb_spec (idleSupply m) 0) as [Hi|Hi].
  - split; [discriminate | intros [? _]; contradiction].
  - destruct (Z.eqb_spec
      (indexMul (scaledP2PTotal (supply (deltas m)))
                (p2pIndex (supplyIndexes (indexes m)))) 0) as [Hd|Hd]; simpl.
    + split; [intros _; split; assumption | reflexivity].
    + split; [discriminate | intros [_ ?]; contradiction].
Qed.

(** Both branches of [getTotalValueLocked], read through the selectors. *)
Lemma totalValueRaw_sides (pt : PositionType) (m : Market) (rd : ReserveData)
    (onPool : Z) :
  totalValueRaw pt m rd onPool =
    (pI ← proportionIdle m;
     ix ← computeP2PIndexes (indexesParams m rd pI);
     Ok (inP2P pt m ix + onPool)).
Proof. destruct pt; reflexivity. Qed.

(** Both branches of [_getProtocolTokenApr], read through the selectors. *)
Lemma protocolTokenAprRate_sides (pt : PositionType) (m : Market)
    (rd : ReserveData) (onPool : Z) :
  protocolTokenAprRate pt m rd onPool =
    (pI ← proportionIdle m;
     ix ← computeP2PIndexes (indexesParams m rd pI);
     rate ← p2pRate pt m rd pI ix;
     if inP2P pt m ix + onPool =? 0 then Ok (poolRate pt rd)
     else RayMath.rayDiv
            (indexMul rate (inP2P pt m ix) + indexMul (poolRate pt rd) onPool)
            (inP2P pt m ix + onPool)).
Proof. destruct pt; reflexivity. Qed.

(** C1 (as amended).  The guard of [proportionIdle] is on [idleSupply]:
    when [idleSupply] is 0 the proportion is 0 whatever [scaledP2PTotal]
    is, and no division takes place, at each of the four places that
    compute it (both branches of [getTotalValueLocked] and of
    [_getProtocolTokenApr]), which therefore hand 0 to the interest-rate
    model. *)
Theorem proportionIdle_zero_when_no_idle_supply
    (pt : PositionType) (m : Market) (rd : ReserveData) (onPool : Z) :
  idleSupply m = 0 →
  proportionIdle m = Ok 0
  ∧ totalValueRaw pt m rd onPool =
      (ix ← computeP2PIndexes (indexesParams m rd 0);
       Ok (inP2P pt m ix + onPool))
  ∧ protocolTokenAprRate pt m rd onPool =
      (ix ← computeP2PIndexes (indexesParams m rd 0);
       rate ← p2pRate pt m rd 0 ix;
       if inP2P pt m ix + onPool =? 0 then Ok (poolRate pt rd)
       else RayMath.rayDiv
              (indexMul rate (inP2P pt m ix)
               + indexMul (poolRate pt rd) onPool)
              (inP2P pt m ix + onPool)).
Proof.
  intros Hidle.
  pose proof (proportionIdle_idle_zero m Hidle) as HpI.
  split; [exact HpI|]. split.
  - rewrite totalValueRaw_sides, HpI. reflexivity.
  - rewrite protocolTokenAprRate_sides, HpI. reflexivity.
Qed.

End TvlApr.

(** Witness of C1: a market with no idle supply and no peer-to-peer supply. *)
Lemma proportionIdle_zero_when_no_idle_supply_witness :
  idleSupply (sampleMarket 0 0 0) = 0
  ∧ proportionIdle (sampleMarket 0 0 0) = Ok 0
  ∧ totalValueRaw (IRM := sampleRates) Supply (sampleMarket 0 0 0)
      sampleReserve 500 = Ok 500.
Proof.
  split; [reflexivity|].
  destruct (proportionIdle_zero_when_no_idle_supply (IRM := sampleRates)
              Supply (sampleMarket 0 0 0) sampleReserve 500 eq_refl)
    as (H1 & H2 & _).
  split; [exact H1 | rewrite H2; reflexivity].
Defined.

(** Counterexample to C1 as stated: with [scaledP2PTotal = 0] and one unit of
    idle supply the guard does not apply, the denominator is
    [indexMul(0, p2pIndex) = 0], and all four places fail with a division by
    zero instead of producing 0. *)
Lemma proportionIdle_zero_total_divides_by_zero :
  scaledP2PTotal (supply (deltas (sampleMarket 1 0 0))) = 0
  ∧ proportionIdle (sampleMarket 1 0 0) = Err DivisionByZero
  ∧ totalValueRaw (IRM := sampleRates) Supply (sampleMarket 1 0 0)
      sampleReserve 500 = Err DivisionByZero
  ∧ totalValueRaw (IRM := sampleRates) Borrow (sampleMarket 1 0 0)
      sampleReserve 500 = Err DivisionByZero
  ∧ protocolTokenAprRate (IRM := sampleRates) Supply (sampleMarket 1 0 0)
      sampleReserve 500 = Err DivisionByZero
  ∧ protocolTokenAprRate (IRM := sampleRates) Borrow (sampleMarket 1 0 0)
      sampleReserve 500 = Err DivisionByZero.
Proof. repeat split. Qed.

Section TvlAprAdapter.

Context `{IRM : P2PInterestRates} `{CR : ChainReader}.
Variable (this : Adapter).

Import MorphoAaveMath.

Lemma _fetchPoolMetadata_Ok (a : string) (pm : PoolMetadata) :
  _fetchPoolMetadata this a = Ok pm ↔ metadata this !! a = Some pm.
Proof.
  unfold _fetchPoolMetadata, buildMetadata.
  destruct (metadata this !! a); split; congruence.
Qed.

(** C2.  Once the market state has been read and the peer-to-peer index
    and rate have been computed, the rate of [_getProtocolTokenApr] is the
    ray division of [p2pRate × p2pAmount + poolRate × poolAmount] (each
    product a ray multiplication) by [totalAmount = p2pAmount +
    poolAmount], rounded half up; and when [totalAmount] is 0 it is the raw
    pool rate itself ([currentLiquidityRate] for a supply adapter,
    [currentVariableBorrowRate] otherwise), a result that no division
    produced. *)
Theorem blended_rate_is_weighted_average
    (protocolTokenAddress : string) (blockNumber : option Z)
    (pm : PoolMetadata) (m : Market) (rd : ReserveData) (onPool pI : Z)
    (ix : P2PIndexes) (rate : Z) :
  let pt := positionType this in
  let p2pAmount := inP2P pt m ix in
  let totalAmount := p2pAmount + onPool in
  metadata this !! protocolTokenAddress = Some pm →
  market (address (underlyingToken pm)) blockNumber = Ok m →
  getReserveData (address (underlyingToken pm)) blockNumber = Ok rd →
  balanceOf (poolHeldToken pt m) (morphoAddress this) blockNumber = Ok onPool →
  proportionIdle m = Ok pI →
  computeP2PIndexes (indexesParams m rd pI) = Ok ix →
  p2pRate pt m rd pI ix = Ok rate →
  (totalAmount ≠ 0 →
     _getProtocolTokenApr this protocolTokenAddress blockNumber =
       Ok (((indexMul rate p2pAmount + indexMul (poolRate pt rd) onPool)
            * RayMath.RAY + totalAmount / 2) / totalAmount))
  ∧ (totalAmount = 0 →
     _getProtocolTokenApr this protocolTokenAddress blockNumber =
       Ok (poolRate pt rd)).
Proof.
  intros pt p2pAmount totalAmount Hpm Hm Hrd Hbal HpI Hix Hrate.
  assert (Hcore : _getProtocolTokenApr this protocolTokenAddress blockNumber
                  = protocolTokenAprRate pt m rd onPool).
  { unfold _getProtocolTokenApr.
    apply _fetchPoolMetadata_Ok in Hpm. rewrite Hpm; simpl.
    rewrite Hm; simpl. rewrite Hrd; simpl.
    fold pt. rewrite Hbal; reflexivity. }
  rewrite Hcore, protocolTokenAprRate_sides, HpI; simpl.
  rewrite Hix; simpl. rewrite Hrate; simpl.
  fold p2pAmount totalAmount.
  split; intros Htot.
  - destruct (Z.eqb_spec totalAmount 0); [contradiction|].
    apply rayDiv_Ok; assumption.
  - rewrite Htot; reflexivity.
Qed.

(** C3.  For every market, the total that [getTotalValueLocked] reports is
    [scaledP2PTotal] of the adapter's side ray-multiplied by the new
    peer-to-peer index of that side, as [computeP2PIndexes] has just
    returned it, plus the balance the pool holds for Morpho: whenever the
    index computation succeeds this is the value of [totalValueRaw], and
    every entry of a returned list carries it. *)
Theorem tvl_is_p2p_amount_plus_pool_balance (blockNumber : option Z) :
  let pt := positionType this in
  (∀ (m : Market) (rd : ReserveData) (onPool pI : Z) (ix : P2PIndexes),
     proportionIdle m = Ok pI →
     computeP2PIndexes (indexesParams m rd pI) = Ok ix →
     totalValueRaw pt m rd onPool =
       Ok (indexMul (scaledP2PTotal (sideDelta pt m)) (sideIndex pt ix)
           + onPool))
  ∧ (∀ tvls : list ProtocolTokenTvl,
       getTotalValueLocked this blockNumber = Ok tvls →
       Forall (fun tvl =>
         ∃ (pm : PoolMetadata) (m : Market) (rd : ReserveData)
           (onPool pI : Z) (ix : P2PIndexes),
           metadata this !! address (tvl_token tvl) = Some pm
           ∧ market (address (underlyingToken pm)) blockNumber = Ok m
           ∧ getReserveData (address (underlyingToken pm)) blockNumber
             = Ok rd
           ∧ balanceOf (poolHeldToken pt m) (morphoAddress this) blockNumber
             = Ok onPool
           ∧ proportionIdle m = Ok pI
           ∧ computeP2PIndexes (indexesParams m rd pI) = Ok ix
           ∧ totalSupplyRaw tvl =
               indexMul (scaledP2PTotal (sideDelta pt m)) (sideIndex pt ix)
               + onPool) tvls).
Proof.
  intros pt. split.
  - intros m rd onPool pI ix HpI Hix.
    rewrite totalValueRaw_sides, HpI; simpl. rewrite Hix; reflexivity.
  - intros tvls H. unfold getTotalValueLocked in H.
    apply promiseAll_Ok, Forall2_exists_l in H.
    eapply Forall_impl; [exact H|]. clear H.
    intros tvl (tok & _ & H); simpl in H.
    apply bind_Ok in H as (pm & Hpm & H).
    apply bind_Ok in H as (m & Hm & H).
    apply bind_Ok in H as (rd & Hrd & H).
    apply bind_Ok in H as (onPool & Hbal & H).
    apply bind_Ok in H as (total & Htotal & [= <-]).
    fold pt in Hbal, Htotal.
    rewrite totalValueRaw_sides in Htotal.
    apply bind_Ok in Htotal as (pI & HpI & Htotal).
    apply bind_Ok in Htotal as (ix & Hix & [= <-]).
    apply _fetchPoolMetadata_Ok in Hpm.
    exists pm, m, rd, onPool, pI, ix; simpl. repeat split; assumption.
Qed.

End TvlAprAdapter.

(** Witness of C2.  A supply market with 1000 units matched peer-to-peer at
    4% and 500 units on the pool at 3% (indexes at 1.1 ray): the blended
    rate is [(0.04 × 1100 + 0.03 × 500) / 1600 = 0.036875]; an empty market
    reports the pool rate of 3%. *)
Lemma blended_rate_is_weighted_average_witness :
  _getProtocolTokenApr (IRM := sampleRates)
    (CR := sampleChain (sampleMarket 0 1000 0) sampleReserve 500
             (fun _ => 0) (fun _ => 0) (fun _ => 0) (fun _ => []))
    (sampleAdapter Supply) "aWETH" None
  = Ok 36875000000000000000000000
  ∧ _getProtocolTokenApr (IRM := sampleRates)
      (CR := sampleChain (sampleMarket 0 0 0) sampleReserve 0
               (fun _ => 0) (fun _ => 0) (fun _ => 0) (fun _ => []))
      (sampleAdapter Supply) "aWETH" None
    = Ok (currentLiquidityRate sampleReserve).
Proof.
  split.
  - refine (proj1 (blended_rate_is_weighted_average (IRM := sampleRates)
      (CR := sampleChain (sampleMarket 0 1000 0) sampleReserve 500
               (fun _ => 0) (fun _ => 0) (fun _ => 0) (fun _ => []))
      (sampleAdapter Supply) "aWETH" None
      {| protocolToken := aWETH; underlyingToken := WETH |}
      (sampleMarket 0 1000 0) sampleReserve 500 0 sampleIndexes (4 * 10 ^ 25)
      eq_refl eq_refl eq_refl eq_refl eq_refl eq_refl eq_refl) _).
    vm_compute; discriminate.
  - refine (proj2 (blended_rate_is_weighted_average (IRM := sampleRates)
      (CR := sampleChain (sampleMarket 0 0 0) sampleReserve 0
               (fun _ => 0) (fun _ => 0) (fun _ => 0) (fun _ => []))
      (sampleAdapter Supply) "aWETH" None
      {| protocolToken := aWETH; underlyingToken := WETH |}
      (sampleMarket 0 0 0) sampleReserve 0 0 sampleIndexes (4 * 10 ^ 25)
      eq_refl eq_refl eq_refl eq_refl eq_refl eq_refl eq_refl) _).
    reflexivity.
Defined.

(** Witness of C3, the scenario of the specification: 1000 units of scaled
    peer-to-peer supply, a new index of 1.1 ray and 500 units held on the
    pool give a total of [1000 × 1.1 + 500 = 1600]. *)
Lemma tvl_is_p2p_amount_plus_pool_balance_witness :
  totalValueRaw (IRM := sampleRates) Supply (sampleMarket 0 1000 0)
    sampleReserve 500 = Ok 1600
  ∧ getTotalValueLocked (IRM := sampleRates)
      (CR := sampleChain (sampleMarket 0 1000 0) sampleReserve 500
               (fun _ => 0) (fun _ => 0) (fun _ => 0) (fun _ => []))
      (sampleAdapter Supply) None
    = Ok [ {| tvl_token := aWETH;
              tvl_type := TokenType.Protocol;
              totalSupplyRaw := 1600 |} ].
Proof.
  split.
  - exact (proj1 (tvl_is_p2p_amount_plus_pool_balance (IRM := sampleRates)
      (CR := sampleChain (sampleMarket 0 1000 0) sampleReserve 500
               (fun _ => 0) (fun _ => 0) (fun _ => 0) (fun _ => []))
      (sampleAdapter Supply) None)
      (sampleMarket 0 1000 0) sampleReserve 500 0 sampleIndexes
      eq_refl eq_refl).
  - vm_compute. reflexivity.
Defined.

(** ** Movements and profits *)

Lemma js_or_supplied : js_or "supplied" "collat-supplied" = "supplied".
Proof. reflexivity. Qed.

Lemma spread_lookup {V} (a b : gmap string V) (k : string) :
  spread a b !! k = match b !! k with Some v => Some v | None => a !! k end.
Proof.
  unfold spread. destruct (b !! k) as [v|] eqn:Hb.
  - apply lookup_union_Some_l; exact Hb.
  - rewrite lookup_union_r; [reflexivity | exact Hb].
Qed.

(** The aggregated sums do not depend on the order of the events. *)
Lemma aggregateTrades_step_comm (acc x y : gmap string Z) :
  union_with (fun a b => Some (a + b))
    (union_with (fun a b => Some (a + b)) acc x) y
  = union_with (fun a b => Some (a + b))
      (union_with (fun a b => Some (a + b)) acc y) x.
Proof.
  apply map_eq; intros k. rewrite !lookup_union_with.
  destruct (acc !! k), (x !! k), (y !! k); simpl; try reflexivity;
    f_equal; lia.
Qed.

Lemma aggregateTrades_Permutation (events events' : list MovementsByBlock) :
  events ≡ₚ events' → aggregateTrades events = aggregateTrades events'.
Proof.
  unfold aggregateTrades. generalize (∅ : gmap string Z).
  intros acc H; revert acc.
  induction H as [|e l l' _ IH|e1 e2 l|l1 l2 l3 _ IH1 _ IH2]; intros acc; simpl.
  - reflexivity.
  - apply IH.
  - rewrite aggregateTrades_step_comm. reflexivity.
  - rewrite IH1. apply IH2.
Qed.

Section Profits.

Context `{CR : ChainReader}.
Variable (this : Adapter).
Variable formatProtocolTokenArrayToMap :
  list ProtocolPosition → gmap string PositionEntry.

Lemma underlyingProfit_profitRaw
    (startPositionValues : gmap string PositionEntry)
    (protocolTokenAddress : string) (eventsOut eventsIn : gmap string Z)
    (endPosition : Underlying) :
  let a := address (u_token endPosition) in
  profitRaw (underlyingProfit this startPositionValues protocolTokenAddress
               eventsOut eventsIn endPosition)
  = profitSign (positionType this)
    * (u_balanceRaw endPosition
       + (eventsOut !! a) ?? 0
       - (eventsIn !! a) ?? 0
       - (startPositionValue startPositionValues protocolTokenAddress a) ?? 0).
Proof.
  unfold underlyingProfit, startPositionValue; simpl.
  destruct (positionType this); simpl; lia.
Qed.

(** C4.  In a result of [getProfits], every underlying token of every
    protocol token reports
    [profitRaw = end + outflows − inflows − start], multiplied by [-1] for
    a borrow adapter, where [end] is the balance of the position at
    [toBlock], [start] the balance of the same token in the positions at
    [fromBlock] (0 when there is none), and the flows are the aggregated
    sums of its address in [eventsOut] and [eventsIn] (0 when there is no
    such event). *)
Theorem profit_is_end_plus_out_minus_in_minus_start
    (user : string) (fromB toB : Z) (r : ProfitsWithRange) :
  getProfits this formatProtocolTokenArrayToMap user fromB toB = Ok r →
  ∃ endPositions startPositions : list ProtocolPosition,
    getPositions this user (Some toB) = Ok endPositions
    ∧ getPositions this user (Some fromB) = Ok startPositions
    ∧ Forall (fun pf : ProtocolProfit =>
        ∃ (entry : PositionEntry) (eventsOut eventsIn : gmap string Z),
          entry ∈ (map_to_list
                     (formatProtocolTokenArrayToMap endPositions)).*2
          ∧ pf_token pf = protocolTokenMetadata entry
          ∧ movementSums this
              {| userAddress := user;
                 protocolTokenAddress := address (protocolTokenMetadata entry);
                 fromBlock := fromB;
                 toBlock := toB |} = Ok (eventsOut, eventsIn)
          ∧ Forall2 (fun (endPosition : Underlying) (up : UnderlyingProfit) =>
              let a := address (u_token endPosition) in
              up_token up = u_token endPosition
              ∧ profitRaw up =
                  profitSign (positionType this)
                  * (u_balanceRaw endPosition
                     + (eventsOut !! a) ?? 0
                     - (eventsIn !! a) ?? 0
                     - (startPositionValue
                          (formatProtocolTokenArrayToMap startPositions)
                          (address (protocolTokenMetadata entry)) a) ?? 0))
              (map_to_list (underlyingTokenPositions entry)).*2
              (pf_tokens pf))
        (pr_tokens r).
Proof.
  intros H. unfold getProfits in H.
  apply bind_Ok in H as (endValues & Hend & H).
  apply fmap_Ok in Hend as (endPositions & Hend & ->).
  apply bind_Ok in H as (startValues & Hstart & H).
  apply fmap_Ok in Hstart as (startPositions & Hstart & ->).
  apply bind_Ok in H as (tokens & Htokens & [= <-]); simpl.
  exists endPositions, startPositions. do 2 (split; [assumption|]).
  apply promiseAll_Ok, Forall2_exists_l in Htokens.
  eapply Forall_impl; [exact Htokens|]. clear Htokens.
  intros pf (entry & Hin & H); simpl in H.
  apply bind_Ok in H as ([eventsOut eventsIn] & Hev & [= <-]); simpl.
  exists entry, eventsOut, eventsIn. do 3 (split; [done|]).
  apply Forall2_fmap_r, Forall_Forall2_diag, Forall_forall.
  intros endPosition _. split; [reflexivity|].
  apply underlyingProfit_profitRaw.
Qed.

End Profits.

(** Witness of C4, the scenario of the specification: deposits of 100 and
    50, a withdrawal of 30, a balance of 200 at the start and of 320 at the
    end: the profit is [320 + 30 − 150 − 200 = 0]. *)
Lemma profit_is_end_plus_out_minus_in_minus_start_witness :
  ∃ r, getProfits (CR := scenarioChain) (sampleAdapter Supply) sampleFormat
         "user" 10 20 = Ok r
       ∧ (fun pf => profitRaw <$> pf_tokens pf) <$> pr_tokens r = [[0]]
       ∧ ∃ endPositions startPositions,
           getPositions (CR := scenarioChain) (sampleAdapter Supply) "user"
             (Some 20) = Ok endPositions
           ∧ getPositions (CR := scenarioChain) (sampleAdapter Supply) "user"
               (Some 10) = Ok startPositions
           ∧ pp_balanceRaw <$> endPositions = [320]
           ∧ pp_balanceRaw <$> startPositions = [200].
Proof.
  eexists. split; [vm_compute; reflexivity|]. split; [reflexivity|].
  destruct (profit_is_end_plus_out_minus_in_minus_start
              (CR := scenarioChain) (sampleAdapter Supply) sampleFormat
              "user" 10 20 _ eq_refl)
    as (endPositions & startPositions & Hend & Hstart & _).
  exists endPositions, startPositions.
  do 2 (split; [assumption|]).
  vm_compute in Hend, Hstart.
  injection Hend as <-. injection Hstart as <-.
  split; reflexivity.
Defined.

(** C7.  On the same start and end values and the same aggregated flows,
    the profit a borrow adapter reports is the exact negative of the profit
    a supply adapter reports, and both record the same calculation data. *)
Theorem borrow_profit_is_negated_supply_profit
    (supplyAdapter borrowAdapter : Adapter)
    (startPositionValues : gmap string PositionEntry)
    (protocolTokenAddress : string) (eventsOut eventsIn : gmap string Z)
    (endPosition : Underlying) :
  positionType supplyAdapter = Supply →
  positionType borrowAdapter = Borrow →
  profitRaw (underlyingProfit borrowAdapter startPositionValues
               protocolTokenAddress eventsOut eventsIn endPosition)
  = - profitRaw (underlyingProfit supplyAdapter startPositionValues
                   protocolTokenAddress eventsOut eventsIn endPosition)
  ∧ calculationData (underlyingProfit borrowAdapter startPositionValues
                       protocolTokenAddress eventsOut eventsIn endPosition)
    = calculationData (underlyingProfit supplyAdapter startPositionValues
                         protocolTokenAddress eventsOut eventsIn endPosition).
Proof.
  intros Hs Hb. split.
  - rewrite !underlyingProfit_profitRaw, Hs, Hb. simpl. lia.
  - reflexivity.
Qed.

(** Witness of C7: end 320, outflows 30, inflows 100, start 200 give a
    supply profit of 50 and a borrow profit of -50. *)
Lemma borrow_profit_is_negated_supply_profit_witness :
  let start : gmap string PositionEntry :=
    {[ "aWETH" := {| protocolTokenMetadata := aWETH;
                     underlyingTokenPositions :=
                       {[ "WETH" := {| u_token := WETH;
                                       u_balanceRaw := 200;
                                       u_type := TokenType.Underlying |} ]} |} ]} in
  let endPosition :=
    {| u_token := WETH; u_balanceRaw := 320;
       u_type := TokenType.Underlying |} in
  profitRaw (underlyingProfit (sampleAdapter Supply) start "aWETH"
               {[ "WETH" := 30 ]} {[ "WETH" := 100 ]} endPosition) = 50
  ∧ profitRaw (underlyingProfit (sampleAdapter Borrow) start "aWETH"
                 {[ "WETH" := 30 ]} {[ "WETH" := 100 ]} endPosition) = - 50.
Proof.
  intros start endPosition.
  assert (Hs : profitRaw (underlyingProfit (sampleAdapter Supply) start "aWETH"
                 {[ "WETH" := 30 ]} {[ "WETH" := 100 ]} endPosition) = 50)
    by (vm_compute; reflexivity).
  split; [exact Hs|].
  rewrite (proj1 (borrow_profit_is_negated_supply_profit
                    (sampleAdapter Supply) (sampleAdapter Borrow) start "aWETH"
                    {[ "WETH" := 30 ]} {[ "WETH" := 100 ]} endPosition
                    eq_refl eq_refl)), Hs.
  reflexivity.
Defined.

Section Deposits.

Context `{CR : ChainReader}.
Variable (this : Adapter).

(** C6.  ['supplied' || 'collat-supplied'] is ['supplied'], so
    [getDeposits] is [_getMovements] with the event type ['supplied']: the
    filter it queries is [Supplied], and whatever [CollateralSupplied]
    logs the chain holds, the result of [getDeposits] is the same. *)
Theorem getDeposits_queries_supplied_only (input : GetEventsInput) :
  js_or "supplied" "collat-supplied" = "supplied"
  ∧ getDeposits this input = _getMovements this input "supplied"
  ∧ movementFilter (js_or "supplied" "collat-supplied") (userAddress input)
    = Some (Supplied (userAddress input))
  ∧ ∀ logs : string → string → Z → Z → Result (list EventLog),
      getDeposits (CR := withCollateralSuppliedLogs CR logs) this input
      = getDeposits this input.
Proof.
  split; [reflexivity|]. split; [reflexivity|]. split; [reflexivity|].
  intros logs. reflexivity.
Qed.

End Deposits.

(** C5 (the code departs from it).  A supply adapter whose user supplied 100
    and supplied 50 as collateral of the same token: the two aggregated
    sums are 100 and 50, yet [eventsIn] holds 50 for the token, the object
    spread having replaced the deposits by the collateral deposits, and
    [getProfits] reports a profit of [150 + 0 − 50 − 0 = 100] where the
    inflows of 150 leave none. *)
Theorem supply_inflows_keep_collateral_deposits_only :
  let input :=
    {| userAddress := "user"; protocolTokenAddress := "aWETH";
       fromBlock := 10; toBlock := 20 |} in
  (aggregateTrades <$> getDeposits (CR := collateralChain)
                         (sampleAdapter Supply) input)
    = Ok {[ "WETH" := 100 ]}
  ∧ (aggregateTrades <$> getCollateralDeposits (CR := collateralChain)
                           (sampleAdapter Supply) input)
    = Ok {[ "WETH" := 50 ]}
  ∧ (snd <$> movementSums (CR := collateralChain) (sampleAdapter Supply) input)
    = Ok {[ "WETH" := 50 ]}
  ∧ (fun r => (fun pf => (fun up => (profitRaw up, calculationData up))
                           <$> pf_tokens pf) <$> pr_tokens r)
      <$> getProfits (CR := collateralChain) (sampleAdapter Supply)
            sampleFormat "user" 10 20
    = Ok [[ (100, {| withdrawalsRaw := 0; depositsRaw := 50;
                     startPositionValueRaw := 0;
                     endPositionValueRaw := 150 |}) ]].
Proof. vm_compute. repeat split. Qed.

(** ** JavaScript numbers *)

(** Every power of ten up to [10^22] is a double: rounding leaves it as it
    is. *)
Lemma pow10_exact (d : nat) :
  (d ≤ 22)%nat →
  JsNumber.pow10 (Exponentiation := roundingEngine) d = Some (10 ^ Z.of_nat d).
Proof.
  intros Hd.
  do 23 (destruct d as [|d]; [vm_compute; reflexivity|]).
  lia.
Qed.

(** [10^23] is not a double: no 53-bit significand scaled by a power of two
    equals it, however the exponentiation is rounded. *)
Lemma ten_pow_23_not_a_double (q s : Z) :
  0 ≤ q < 2 ^ 53 → 0 ≤ s → q * 2 ^ s ≠ 10 ^ 23.
Proof.
  intros Hq Hs Heq.
  destruct (Z.le_gt_cases s 23) as [Hle|Hgt].
  - assert (H2 : 2 ^ s ≤ 2 ^ 23) by (apply Z.pow_le_mono_r; lia).
    assert (0 < 2 ^ s) by (apply Z.pow_pos_nonneg; lia).
    assert (Hlt : q * 2 ^ s < 2 ^ 53 * 2 ^ 23) by nia.
    rewrite Heq in Hlt. vm_compute in Hlt. discriminate.
  - replace s with (24 + (s - 24)) in Heq by lia.
    rewrite Z.pow_add_r in Heq by lia.
    assert (Hmod : (10 ^ 23) mod 2 ^ 24 = 0).
    { rewrite <- Heq.
      replace (q * (2 ^ 24 * 2 ^ (s - 24))) with (q * 2 ^ (s - 24) * 2 ^ 24)
        by ring.
      apply Z.mod_mul. discriminate. }
    vm_compute in Hmod. discriminate.
Qed.

(** ** Positions *)

Section Positions.

Context `{CR : ChainReader} `{JS : JsNumber.Exponentiation}.
Variable (this : Adapter).

(** What [getPositions] puts in each entry of a list it returns. *)
Lemma getPositions_entries (user : string) (block : option Z)
    (ps : list ProtocolPosition) :
  getPositions this user block = Ok ps →
  Forall (fun p =>
    ∃ pm : PoolMetadata,
      metadata this !! address (pp_token p) = Some pm
      ∧ getBalance this (underlyingToken pm) user block
        = Ok (pp_balanceRaw p)
      ∧ pp_balanceRaw p ≠ 0
      ∧ pp_tokens p =
          [ {| u_token := underlyingToken pm;
               u_balanceRaw := pp_balanceRaw p;
               u_type := TokenType.Underlying |} ]) ps.
Proof.
  intros H. unfold getPositions in H.
  apply bind_Ok in H as (balances & Hbal & H).
  apply promiseAll_Ok, Forall2_exists_l in Hbal.
  apply promiseAll_Ok, Forall2_exists_l in H.
  eapply Forall_impl; [exact H|]. clear H.
  intros p (ptb & Hin & H); simpl in H.
  apply list_elem_of_filter in Hin as [Hnz Hin].
  rewrite Forall_forall in Hbal.
  destruct (Hbal _ Hin) as (tok & _ & Htok); simpl in Htok.
  apply bind_Ok in Htok as (pm & Hpm & Htok).
  apply bind_Ok in Htok as (amount & Hamount & [= <-]).
  simpl in *.
  apply bind_Ok in H as (tokenMetadata & Hmeta & H).
  apply bind_Ok in H as (us & Hus & [= <-]); simpl.
  unfold _getUnderlyingTokenBalances in Hus; simpl in Hus.
  rewrite Hpm in Hus; simpl in Hus. injection Hus as <-.
  apply _fetchPoolMetadata_Ok in Hpm.
  exists pm. repeat split; assumption.
Qed.

(** [getPositions] returns whenever the balance of every market can be
    read. *)
Lemma getPositions_returns (user : string) (block : option Z) :
  keyedByProtocolToken (metadata this) →
  (∀ (k : string) (pm : PoolMetadata),
     metadata this !! k = Some pm →
     ∃ b, getBalance this (underlyingToken pm) user block = Ok b) →
  ∃ ps, getPositions this user block = Ok ps.
Proof.
  intros Hkeys Hreads. unfold getPositions.
  set (g := fun market : Erc20Metadata =>
              pm ← _fetchPoolMetadata this (address market);
              amount ← getBalance this (underlyingToken pm) user block;
              Ok (address market, amount)).
  destruct (promiseAll_total g
              (fun ptb : string * Z => is_Some (metadata this !! ptb.1))
              (getProtocolTokens this)) as (balances & -> & Hbal).
  { unfold getProtocolTokens, buildMetadata.
    apply Forall_fmap, Forall_fmap, Forall_forall.
    intros [k pm] Hin. apply elem_of_map_to_list in Hin. simpl.
    destruct (Hreads k pm Hin) as (b & Hb).
    exists (k, b). unfold g.
    rewrite (Hkeys k pm Hin).
    rewrite (proj2 (_fetchPoolMetadata_Ok this k pm) Hin); simpl.
    rewrite Hb; simpl. split; [reflexivity | eauto]. }
  simpl.
  match goal with
  | |- ∃ ps, promiseAll ?h ?l = Ok ps =>
      destruct (promiseAll_total h (fun _ => True) l) as (ps & Hps & _);
        [|exists ps; exact Hps]
  end.
  apply Forall_forall. intros ptb Hin.
  apply list_elem_of_filter in Hin as [_ Hin].
  rewrite Forall_forall in Hbal. destruct (Hbal _ Hin) as (pm & Hpm).
  unfold _fetchProtocolTokenMetadata, _getUnderlyingTokenBalances; simpl.
  rewrite (proj2 (_fetchPoolMetadata_Ok this _ pm) Hpm); simpl.
  eexists; split; [reflexivity | exact I].
Qed.

(** C9.  [getPositions] reads, for the underlying token of each market,
    the sum of the supply and collateral balances when the adapter is a
    supply adapter and the borrow balance otherwise, and every entry of
    the list it returns carries such a balance, which is not zero. *)
Theorem positions_carry_nonzero_fetched_balances
    (user : string) (block : option Z) :
  (∀ market : Erc20Metadata,
     getBalance this market user block =
       match positionType this with
       | Supply =>
           s ← supplyBalance (address market) user block;
           c ← collateralBalance (address market) user block;
           Ok (s + c)
       | _ => borrowBalance (address market) user block
       end)
  ∧ ∀ ps : list ProtocolPosition,
      getPositions this user block = Ok ps →
      Forall (fun p =>
        pp_balanceRaw p ≠ 0
        ∧ ∃ pm : PoolMetadata,
            metadata this !! address (pp_token p) = Some pm
            ∧ getBalance this (underlyingToken pm) user block
              = Ok (pp_balanceRaw p)) ps.
Proof.
  split.
  - intros market. unfold getBalance.
    destruct (positionType this); reflexivity.
  - intros ps H. apply getPositions_entries in H.
    eapply Forall_impl; [exact H|].
    intros p (pm & Hpm & Hbal & Hnz & _). split; [exact Hnz|].
    exists pm; split; assumption.
Qed.

(** What the code does for a supply position.  The balance of a position
    is [supplyBalance + collateralBalance]; its single underlying token
    carries that same raw balance; and the conversion rate is the engine's
    [10 ** decimals], so it is [10^decimals] wherever the engine computes
    that power exactly. *)
Lemma supply_position_is_sum_and_pegged_to_one
    (user : string) (block : option Z) :
  positionType this = Supply →
  (∀ (market : Erc20Metadata) (s c : Z),
     supplyBalance (address market) user block = Ok s →
     collateralBalance (address market) user block = Ok c →
     getBalance this market user block = Ok (s + c))
  ∧ (∀ ps : list ProtocolPosition,
       getPositions this user block = Ok ps →
       Forall (fun p =>
         ∃ (pm : PoolMetadata) (s c : Z),
           metadata this !! address (pp_token p) = Some pm
           ∧ supplyBalance (address (underlyingToken pm)) user block = Ok s
           ∧ collateralBalance (address (underlyingToken pm)) user block
             = Ok c
           ∧ pp_balanceRaw p = s + c
           ∧ pp_tokens p =
               [ {| u_token := underlyingToken pm;
                    u_balanceRaw := pp_balanceRaw p;
                    u_type := TokenType.Underlying |} ]) ps)
  ∧ (∀ (protocolTokenMetadata : Erc20Metadata) (pm : PoolMetadata),
       metadata this !! address protocolTokenMetadata = Some pm →
       JsNumber.pow10 (decimals protocolTokenMetadata)
         = Some (10 ^ Z.of_nat (decimals protocolTokenMetadata)) →
       _getUnderlyingTokenConversionRate this protocolTokenMetadata =
         Ok [ {| ur_token := underlyingToken pm;
                 ur_type := TokenType.Underlying;
                 underlyingRateRaw :=
                   10 ^ Z.of_nat (decimals protocolTokenMetadata) |} ]).
Proof.
  intros Hsupply. split; [|split].
  - intros market s c Hs Hc. unfold getBalance.
    rewrite Hsupply; simpl. rewrite Hs; simpl. rewrite Hc; reflexivity.
  - intros ps H. apply getPositions_entries in H.
    eapply Forall_impl; [exact H|].
    intros p (pm & Hpm & Hbal & _ & Htokens).
    unfold getBalance in Hbal. rewrite Hsupply in Hbal; simpl in Hbal.
    apply bind_Ok in Hbal as (s & Hs & Hbal).
    apply bind_Ok in Hbal as (c & Hc & [= Hsum]).
    exists pm, s, c. repeat split; try assumption. symmetry; exact Hsum.
  - intros ptm pm Hpm Hd. unfold _getUnderlyingTokenConversionRate.
    apply _fetchPoolMetadata_Ok in Hpm. rewrite Hpm; simpl.
    rewrite Hd. reflexivity.
Qed.

(** C10 (the code departs from it).  The rate is [BigInt(10 ** decimals)],
    computed on [Number]s, and [10^23] is not a [Number]: for a protocol
    token of 23 decimals the rate returned is the engine's answer [v] to
    [10 ** 23], whatever the engine, and it is not [10^23]. *)
Theorem conversion_rate_at_23_decimals_is_not_the_peg
    (protocolTokenMetadata : Erc20Metadata) (pm : PoolMetadata) (v : Z) :
  metadata this !! address protocolTokenMetadata = Some pm →
  decimals protocolTokenMetadata = 23%nat →
  JsNumber.pow10 23 = Some v →
  JsNumber.isDouble v →
  _getUnderlyingTokenConversionRate this protocolTokenMetadata
  = Ok [ {| ur_token := underlyingToken pm;
            ur_type := TokenType.Underlying;
            underlyingRateRaw := v |} ]
  ∧ v ≠ 10 ^ Z.of_nat (decimals protocolTokenMetadata).
Proof.
  intros Hpm Hd Hv (m & e & Hm & He & ->). split.
  - unfold _getUnderlyingTokenConversionRate.
    apply _fetchPoolMetadata_Ok in Hpm. rewrite Hpm; simpl.
    rewrite Hd, Hv. reflexivity.
  - rewrite Hd. exact (ten_pow_23_not_a_double m e Hm He).
Qed.

End Positions.

(** Witness of C9: at block 20 the user of the scenario holds a supply
    balance of 320 and no collateral. *)
Lemma positions_carry_nonzero_fetched_balances_witness :
  ∃ ps, getPositions (CR := scenarioChain) (sampleAdapter Supply) "user"
          (Some 20) = Ok ps
        ∧ pp_balanceRaw <$> ps = [320]
        ∧ Forall (fun p => pp_balanceRaw p ≠ 0) ps.
Proof.
  eexists. split; [vm_compute; reflexivity|]. split; [reflexivity|].
  eapply Forall_impl.
  - exact (proj2 (positions_carry_nonzero_fetched_balances
                    (CR := scenarioChain) (sampleAdapter Supply) "user"
                    (Some 20)) _ eq_refl).
  - intros p [Hnz _]; exact Hnz.
Defined.

(** A market in which the user holds nothing is left out of the list. *)
Example getPositions_drops_zero_balance :
  getPositions
    (CR := sampleChain (sampleMarket 0 1000 0) sampleReserve 500
             (fun _ => 0) (fun _ => 0) (fun _ => 7) (fun _ => []))
    (sampleAdapter Supply) "user" (Some 20) = Ok [].
Proof. vm_compute; reflexivity. Qed.

(** At 100 supplied and 50 as collateral the position is 150, carried over
    unchanged to the underlying token, at a rate of [10^18] for the 18
    decimals of the protocol token. *)
Example supply_position_of_the_sample :
  getBalance (CR := collateralChain) (sampleAdapter Supply) WETH "user"
    (Some 20) = Ok 150
  ∧ _getUnderlyingTokenConversionRate (JS := roundingEngine)
      (sampleAdapter Supply) aWETH
    = Ok [ {| ur_token := WETH;
              ur_type := TokenType.Underlying;
              underlyingRateRaw := 10 ^ 18 |} ].
Proof.
  destruct (supply_position_is_sum_and_pegged_to_one
              (CR := collateralChain) (JS := roundingEngine)
              (sampleAdapter Supply) "user" (Some 20)
              eq_refl) as (Hbalance & _ & Hrate).
  split.
  - exact (Hbalance WETH 100 50 eq_refl eq_refl).
  - exact (Hrate aWETH {| protocolToken := aWETH; underlyingToken := WETH |}
             eq_refl (pow10_exact 18 ltac:(lia))).
Qed.

(** Witness of C10: the double nearest to [10^23] is
    [99999999999999991611392 = 5960464477539062 * 2^24]; on an engine that
    answers it, that is the rate of a protocol token of 23 decimals. *)
Lemma conversion_rate_at_23_decimals_is_not_the_peg_witness :
  _getUnderlyingTokenConversionRate (JS := roundingEngine)
    (sampleAdapter Supply)
    {| address := "aWETH"; name := "Aave WETH"; symbol := "aWETH";
       decimals := 23 |}
  = Ok [ {| ur_token := WETH;
            ur_type := TokenType.Underlying;
            underlyingRateRaw := 99999999999999991611392 |} ]
  ∧ 99999999999999991611392 ≠ 10 ^ 23.
Proof.
  refine (conversion_rate_at_23_decimals_is_not_the_peg
            (JS := roundingEngine) (sampleAdapter Supply)
            {| address := "aWETH"; name := "Aave WETH"; symbol := "aWETH";
               decimals := 23 |}
            {| protocolToken := aWETH; underlyingToken := WETH |}
            99999999999999991611392 eq_refl eq_refl _ _).
  - vm_compute. reflexivity.
  - exists 5960464477539062, 24. split; [lia|]. split; [lia|].
    vm_compute. reflexivity.
Defined.

(** ** Token metadata resolution *)

Section Resolution.

Import TokenMetadata.
Context `{E : Env}.

(** An address that [getAddress] rejects fails the whole call, before any
    source of metadata is consulted. *)
Lemma getTokenMetadata_rejected_address (tokenAddress : string)
    (chainId : Chain.t) (e : Error) :
  getAddress tokenAddress = Err e →
  getTokenMetadata tokenAddress chainId = Err e.
Proof. intros H. unfold getTokenMetadata. rewrite H. reflexivity. Qed.

(** C8 (as amended).  For a token address that [getAddress] accepts:
    the REUSD token on Ethereum is answered from its hard-coded record and
    a native-token address from the native-token table, before any lookup;
    for every other address the static file of the chain is consulted
    first, under the lower-cased address, and a hit is returned with its
    address normalised; on a miss the on-chain lookup is tried and its
    result returned; and the error of a failed resolution is raised
    exactly when both the file and the chain have nothing, the only other
    failure being a file entry whose own address [getAddress] rejects. *)
Theorem metadata_from_file_then_chain
    (tokenAddress : string) (chainId : Chain.t) (checksummed : string) :
  getAddress tokenAddress = Ok checksummed →
  (checksummed = address REAL_ESTATE_TOKEN_METADATA
   ∧ chainId = Chain.Ethereum →
   getTokenMetadata tokenAddress chainId = Ok REAL_ESTATE_TOKEN_METADATA)
  ∧ (¬ (checksummed = address REAL_ESTATE_TOKEN_METADATA
        ∧ chainId = Chain.Ethereum) →
     tokenAddress ∈ nativeTokenAddresses →
     getTokenMetadata tokenAddress chainId =
       Ok {| address := checksummed;
             name := nt_name (nativeToken chainId);
             symbol := nt_symbol (nativeToken chainId);
             decimals := nt_decimals (nativeToken chainId) |})
  ∧ (¬ (checksummed = address REAL_ESTATE_TOKEN_METADATA
        ∧ chainId = Chain.Ethereum) →
     tokenAddress ∉ nativeTokenAddresses →
     (∀ cached : Erc20Metadata,
        fileTokenMetadata tokenAddress chainId = Some cached →
        getTokenMetadata tokenAddress chainId =
          (a ← getAddress (address cached);
           Ok {| address := a;
                 name := name cached;
                 symbol := symbol cached;
                 decimals := decimals cached |}))
     ∧ (fileTokenMetadata tokenAddress chainId = None →
        ∀ onChain : Erc20Metadata,
          getOnChainTokenMetadata tokenAddress chainId = Some onChain →
          getTokenMetadata tokenAddress chainId = Ok onChain)
     ∧ (fileTokenMetadata tokenAddress chainId = None →
        getOnChainTokenMetadata tokenAddress chainId = None →
        getTokenMetadata tokenAddress chainId = Err TokenMetadataNotFound)
     ∧ (∀ e : Error,
          getTokenMetadata tokenAddress chainId = Err e →
          (fileTokenMetadata tokenAddress chainId = None
           ∧ getOnChainTokenMetadata tokenAddress chainId = None
           ∧ e = TokenMetadataNotFound)
          ∨ (∃ cached : Erc20Metadata,
               fileTokenMetadata tokenAddress chainId = Some cached
               ∧ getAddress (address cached) = Err e))).
Proof.
  intros Hck. unfold getTokenMetadata. rewrite Hck; simpl.
  split; [|split].
  - intros Hreal. rewrite bool_decide_eq_true_2 by exact Hreal. reflexivity.
  - intros Hnot Hnative.
    rewrite bool_decide_eq_false_2 by exact Hnot.
    rewrite bool_decide_eq_true_2 by exact Hnative.
    reflexivity.
  - intros Hnot Hnative.
    rewrite bool_decide_eq_false_2 by exact Hnot.
    rewrite bool_decide_eq_false_2 by exact Hnative.
    repeat split.
    + intros cached Hfile. rewrite Hfile. reflexivity.
    + intros Hfile onChain Hchain. rewrite Hfile, Hchain. reflexivity.
    + intros Hfile Hchain. rewrite Hfile, Hchain. reflexivity.
    + intros e He.
      destruct (fileTokenMetadata tokenAddress chainId) as [cached|].
      * right. exists cached. split; [reflexivity|].
        destruct (getAddress (address cached)); simpl in He; congruence.
      * left.
        destruct (getOnChainTokenMetadata tokenAddress chainId);
          [discriminate|].
        injection He as <-. repeat split.
Qed.

End Resolution.

(** Witness of C8: WETH is found in the file; USDC is not and is read on
    chain; with the chain unreachable its resolution fails. *)
Lemma metadata_from_file_then_chain_witness :
  TokenMetadata.getTokenMetadata (E := sampleEnv true) WETH_ADDRESS
    Chain.Ethereum
  = Ok {| address := WETH_ADDRESS; name := "Wrapped Ether"; symbol := "WETH";
          decimals := 18 |}
  ∧ TokenMetadata.getTokenMetadata (E := sampleEnv true) USDC_ADDRESS
      Chain.Ethereum
    = Ok {| address := USDC_ADDRESS; name := "USD Coin"; symbol := "USDC";
            decimals := 6 |}
  ∧ TokenMetadata.getTokenMetadata (E := sampleEnv false) USDC_ADDRESS
      Chain.Ethereum
    = Err TokenMetadataNotFound.
Proof.
  assert (Hnative : ∀ a, a ≠ NATIVE_ADDRESS →
            a ∉ TokenMetadata.nativeTokenAddresses (Env := sampleEnv true)).
  { intros a Ha Hin. apply list_elem_of_singleton in Hin. contradiction. }
  split; [|split].
  - destruct (metadata_from_file_then_chain (E := sampleEnv true)
                WETH_ADDRESS Chain.Ethereum WETH_ADDRESS eq_refl)
      as (_ & _ & H).
    destruct H as (Hfile & _).
    + intros [Heq _]; discriminate Heq.
    + apply Hnative; discriminate.
    + rewrite (Hfile _ eq_refl). reflexivity.
  - destruct (metadata_from_file_then_chain (E := sampleEnv true)
                USDC_ADDRESS Chain.Ethereum USDC_ADDRESS eq_refl)
      as (_ & _ & H).
    destruct H as (_ & Hchain & _).
    + intros [Heq _]; discriminate Heq.
    + apply Hnative; discriminate.
    + exact (Hchain eq_refl _ eq_refl).
  - destruct (metadata_from_file_then_chain (E := sampleEnv false)
                USDC_ADDRESS Chain.Ethereum USDC_ADDRESS eq_refl)
      as (_ & _ & H).
    destruct H as (_ & _ & Hnone & _).
    + intros [Heq _]; discriminate Heq.
    + intros Hin. apply list_elem_of_singleton in Hin. discriminate Hin.
    + exact (Hnone eq_refl eq_refl).
Defined.

(** Counterexample to C8 as stated.  The file holds an entry for the REUSD
    token, yet its resolution on Ethereum returns the hard-coded record: the
    file is not consulted first.  And WETH written with a wrong checksum is
    in the file under its lower-cased address, yet its resolution fails on
    [getAddress] before the file or the chain is tried. *)
Lemma metadata_resolution_bypasses_the_file :
  (TokenMetadata.fileTokenMetadata (E := sampleEnv true)
     (address TokenMetadata.REAL_ESTATE_TOKEN_METADATA) Chain.Ethereum
   = Some {| address := address TokenMetadata.REAL_ESTATE_TOKEN_METADATA;
             name := "Cached REUSD"; symbol := "REUSD"; decimals := 18 |}
   ∧ TokenMetadata.getTokenMetadata (E := sampleEnv true)
       (address TokenMetadata.REAL_ESTATE_TOKEN_METADATA) Chain.Ethereum
     = Ok TokenMetadata.REAL_ESTATE_TOKEN_METADATA
   ∧ name TokenMetadata.REAL_ESTATE_TOKEN_METADATA ≠ "Cached REUSD")
  ∧ (is_Some (TokenMetadata.fileTokenMetadata (E := sampleEnv true)
                WETH_BAD_CHECKSUM Chain.Ethereum)
     ∧ is_Some (TokenMetadata.getOnChainTokenMetadata (E := sampleEnv true)
                  WETH_ADDRESS Chain.Ethereum)
     ∧ TokenMetadata.getTokenMetadata (E := sampleEnv true)
         WETH_BAD_CHECKSUM Chain.Ethereum
       = Err InvalidAddress).
Proof.
  split.
  - split; [vm_compute; reflexivity|].
    split; [vm_compute; reflexivity | discriminate].
  - split; [vm_compute; eauto|].
    split; [vm_compute; eauto | reflexivity].
Qed.

(** * Further properties of the adapter *)

(** ** Batches of reads *)

Lemma promiseAll_fmap {A B C} (f : A → Result B) (g : B → C) (h : A → C)
    (xs : list A) (ys : list B) :
  (∀ x y, f x = Ok y → g y = h x) →
  promiseAll f xs = Ok ys → g <$> ys = h <$> xs.
Proof.
  intros Hgh H. apply promiseAll_Ok in H.
  induction H as [|x y xs ys Hxy _ IH]; [reflexivity|].
  rewrite !fmap_cons, (Hgh x y Hxy), IH. reflexivity.
Qed.

Lemma promiseAll_Err {A B} (f : A → Result B) (xs : list A) (x : A) (e : Error) :
  x ∈ xs → f x = Err e → ∃ e', promiseAll f xs = Err e'.
Proof.
  intros Hin Hx. induction xs as [|x' xs IH]; [inversion Hin|].
  simpl. destruct (f x') as [y|e0] eqn:Hx'; simpl; [|eauto].
  apply elem_of_cons in Hin as [->|Hin]; [congruence|].
  destruct (IH Hin) as (e' & ->). simpl. eauto.
Qed.

Lemma Forall2_exists_r {A B} (R : A → B → Prop) (xs : list A) (ys : list B)
    (x : A) :
  Forall2 R xs ys → x ∈ xs → ∃ y, y ∈ ys ∧ R x y.
Proof.
  intros H Hin. apply list_elem_of_lookup in Hin as (i & Hi).
  destruct (Forall2_lookup_l _ _ _ _ _ H Hi) as (y & Hy & HR).
  exists y. split; [apply list_elem_of_lookup; eauto | exact HR].
Qed.

Section AdapterReads.

Context `{IRM : P2PInterestRates} `{CR : ChainReader}
  `{JS : JsNumber.Exponentiation}.
Variable (this : Adapter).

Import MorphoAaveMath.

(** X1.  The proportion of idle supply never exceeds one ray, and it is not
    negative when the idle supply, the scaled peer-to-peer total and the
    peer-to-peer index are not. *)
Theorem proportionIdle_within_one_ray (m : Market) (p : Z) :
  proportionIdle m = Ok p →
  p ≤ ONE
  ∧ (0 ≤ idleSupply m →
     0 ≤ scaledP2PTotal (supply (deltas m)) →
     0 ≤ p2pIndex (supplyIndexes (indexes m)) →
     0 ≤ p).
Proof.
  unfold proportionIdle, indexDiv, indexMul, RayMath.rayDiv, min.
  destruct (Z.eqb_spec (idleSupply m) 0) as [_|Hidle].
  - intros [= <-]. split; [vm_compute; discriminate | intros; lia].
  - set (d := RayMath.rayMul _ _).
    destruct (Z.eqb_spec d 0) as [|Hd]; [discriminate|].
    simpl. intros [= <-]. split; [apply Z.le_min_l|].
    intros Hi Ht Hx.
    assert (0 ≤ d).
    { subst d. unfold RayMath.rayMul. apply Z.div_pos; [|reflexivity].
      assert (0 ≤ RayMath.HALF_RAY) by (vm_compute; discriminate). nia. }
    apply Z.min_glb; [vm_compute; discriminate|].
    apply Z.div_pos; [|lia].
    assert (0 ≤ d / 2) by (apply Z.div_pos; lia).
    pose proof RAY_pos. nia.
Qed.

(** X2.  [getTotalValueLocked] answers with one entry per protocol token of
    the metadata, in the order of [getProtocolTokens], each carrying the
    metadata of its token and the type [Protocol]. *)
Theorem getTotalValueLocked_one_entry_per_token (blockNumber : option Z)
    (tvls : list ProtocolTokenTvl) :
  getTotalValueLocked this blockNumber = Ok tvls →
  tvl_token <$> tvls = getProtocolTokens this
  ∧ Forall (fun tvl => tvl_type tvl = TokenType.Protocol) tvls.
Proof.
  intros H. split.
  - rewrite <- (list_fmap_id (getProtocolTokens this)).
    eapply promiseAll_fmap; [|exact H].
    intros tok tvl Htvl; simpl in Htvl.
    repeat (apply bind_Ok in Htvl as (? & _ & Htvl)).
    injection Htvl as <-. reflexivity.
  - apply promiseAll_Ok, Forall2_exists_l in H.
    eapply Forall_impl; [exact H|].
    intros tvl (tok & _ & Htvl); simpl in Htvl.
    repeat (apply bind_Ok in Htvl as (? & _ & Htvl)).
    injection Htvl as <-. reflexivity.
Qed.

(** X3.  [getTotalValueLocked] gives no partial answer: when the state of
    the market of one registered pool cannot be read, the whole call
    fails. *)
Theorem getTotalValueLocked_fails_with_one_market (blockNumber : option Z)
    (k : string) (pm : PoolMetadata) (e : Error) :
  keyedByProtocolToken (metadata this) →
  metadata this !! k = Some pm →
  market (address (underlyingToken pm)) blockNumber = Err e →
  ∃ e', getTotalValueLocked this blockNumber = Err e'.
Proof.
  intros Hkeys Hpm Hmarket. unfold getTotalValueLocked.
  eapply (promiseAll_Err _ _ (protocolToken pm)).
  - unfold getProtocolTokens, buildMetadata.
    apply list_elem_of_fmap. exists pm. split; [reflexivity|].
    apply list_elem_of_fmap. exists (k, pm). split; [reflexivity|].
    apply elem_of_map_to_list. exact Hpm.
  - simpl. rewrite (Hkeys k pm Hpm).
    rewrite (proj2 (_fetchPoolMetadata_Ok this k pm) Hpm); simpl.
    rewrite Hmarket. reflexivity.
Qed.

(** X4.  On an adapter whose metadata is built already, [metadata this]
    being the object the cache serves, a protocol-token address that is not
    a key of it, and is not a property name that the object inherits, is
    refused with 'Protocol token pool not found' by every entry point that
    takes one, whatever the chain and the engine would answer: the APR, the
    conversion rate, the underlying balances and the metadata getters. *)
Theorem unknown_protocol_token_is_refused (a : string) (blockNumber : option Z)
    (tok : Erc20Metadata) (balance : Z) :
  metadata this !! a = None →
  a ∉ Object_prototype_keys →
  address tok = a →
  _getProtocolTokenApr this a blockNumber = Err PoolNotFound
  ∧ _getUnderlyingTokenConversionRate this tok = Err PoolNotFound
  ∧ _getUnderlyingTokenBalances this
      {| tb_token := tok; tb_balanceRaw := balance |} = Err PoolNotFound
  ∧ _fetchProtocolTokenMetadata this a = Err PoolNotFound
  ∧ _fetchUnderlyingTokensMetadata this a = Err PoolNotFound.
Proof.
  intros Hnone _ <-.
  assert (H : _fetchPoolMetadata this (address tok) = Err PoolNotFound).
  { unfold _fetchPoolMetadata, buildMetadata. rewrite Hnone. reflexivity. }
  unfold _getProtocolTokenApr, _getUnderlyingTokenConversionRate,
    _getUnderlyingTokenBalances, _fetchProtocolTokenMetadata,
    _fetchUnderlyingTokensMetadata; simpl.
  rewrite H. repeat split.
Qed.

End AdapterReads.

Lemma sampleAdapter_keyed (pt : PositionType) :
  keyedByProtocolToken (metadata (sampleAdapter pt)).
Proof.
  intros k pm Hk. unfold sampleAdapter in Hk. cbn [metadata] in Hk.
  apply lookup_singleton_Some in Hk as [<- <-]. reflexivity.
Qed.

(** Witness of X1. *)
Lemma proportionIdle_within_one_ray_witness :
  proportionIdle (sampleMarket 2000 1000 0) = Ok MorphoAaveMath.ONE
  ∧ proportionIdle (sampleMarket 5 1000 0) = Ok (5 * 10 ^ 24)
  ∧ 0 ≤ 5 * 10 ^ 24 ≤ MorphoAaveMath.ONE.
Proof.
  split; [reflexivity|]. split; [reflexivity|].
  destruct (proportionIdle_within_one_ray (sampleMarket 5 1000 0)
              (5 * 10 ^ 24) eq_refl) as [Hle Hge].
  split; [apply Hge; vm_compute; discriminate | exact Hle].
Defined.

(** Witness of X2. *)
Lemma getTotalValueLocked_one_entry_per_token_witness :
  ∃ tvls,
    getTotalValueLocked (IRM := sampleRates) (CR := scenarioChain)
      (sampleAdapter Supply) None = Ok tvls
    ∧ tvl_token <$> tvls = [aWETH].
Proof.
  assert (H : getTotalValueLocked (IRM := sampleRates) (CR := scenarioChain)
                (sampleAdapter Supply) None
              = Ok [ {| tvl_token := aWETH;
                        tvl_type := TokenType.Protocol;
                        totalSupplyRaw := 1600 |} ])
    by (vm_compute; reflexivity).
  eexists. split; [exact H|].
  rewrite (proj1 (getTotalValueLocked_one_entry_per_token
                    (IRM := sampleRates) (CR := scenarioChain)
                    (sampleAdapter Supply) None _ H)).
  vm_compute. reflexivity.
Defined.

(** Witness of X3. *)
Lemma getTotalValueLocked_fails_with_one_market_witness :
  ∃ e, getTotalValueLocked (IRM := sampleRates) (CR := unreadableMarketChain)
         (sampleAdapter Supply) (Some 20) = Err e.
Proof.
  apply (getTotalValueLocked_fails_with_one_market (IRM := sampleRates)
           (CR := unreadableMarketChain) (sampleAdapter Supply) (Some 20)
           "aWETH" {| protocolToken := aWETH; underlyingToken := WETH |}
           UpstreamReadFailure).
  - apply sampleAdapter_keyed.
  - reflexivity.
  - reflexivity.
Defined.

(** Witness of X4. *)
Lemma unknown_protocol_token_is_refused_witness :
  ("WETH" ∉ Object_prototype_keys)
  ∧ _getProtocolTokenApr (IRM := sampleRates) (CR := scenarioChain)
      (sampleAdapter Supply) "WETH" None = Err PoolNotFound
  ∧ _getUnderlyingTokenConversionRate (JS := roundingEngine)
      (sampleAdapter Supply) WETH
    = Err PoolNotFound.
Proof.
  assert (Hown : "WETH" ∉ Object_prototype_keys)
    by (apply (bool_decide_eq_true_1 ("WETH" ∉ Object_prototype_keys));
        vm_compute; reflexivity).
  split; [exact Hown|].
  destruct (unknown_protocol_token_is_refused (IRM := sampleRates)
              (CR := scenarioChain) (JS := roundingEngine)
              (sampleAdapter Supply) "WETH" None WETH 1
              eq_refl Hown eq_refl) as (H1 & H2 & _).
  split; assumption.
Defined.

(** ** Positions, movements and profits, continued *)

Section PositionsAndMovements.

Context `{CR : ChainReader}.
Variable (this : Adapter).

Lemma protocol_token_addresses_are_keys :
  keyedByProtocolToken (metadata this) →
  address <$> getProtocolTokens this = (map_to_list (metadata this)).*1.
Proof.
  intros Hkeys. unfold getProtocolTokens, buildMetadata.
  rewrite <- !list_fmap_compose. apply list_fmap_ext.
  intros i [k pm] Hi; simpl. apply Hkeys, elem_of_map_to_list.
  apply list_elem_of_lookup. eauto.
Qed.

(** X5.  When the metadata is keyed by protocol-token address, as
    [buildMetadata] leaves it, [getPositions] lists every market in which
    the user holds a non-zero balance, with that balance, and lists no
    market twice. *)
Theorem getPositions_lists_each_funded_market_once
    (user : string) (block : option Z) (ps : list ProtocolPosition) :
  keyedByProtocolToken (metadata this) →
  getPositions this user block = Ok ps →
  NoDup (address ∘ pp_token <$> ps)
  ∧ ∀ (k : string) (pm : PoolMetadata) (b : Z),
      metadata this !! k = Some pm →
      getBalance this (underlyingToken pm) user block = Ok b →
      b ≠ 0 →
      ∃ p, p ∈ ps ∧ address (pp_token p) = k ∧ pp_balanceRaw p = b.
Proof.
  intros Hkeys H. unfold getPositions in H.
  apply bind_Ok in H as (balances & Hbal & H).
  assert (Hfst : balances.*1 = (map_to_list (metadata this)).*1).
  { rewrite <- (protocol_token_addresses_are_keys Hkeys).
    eapply promiseAll_fmap; [|exact Hbal].
    intros tok ptb Hg; simpl in Hg.
    apply bind_Ok in Hg as (pm & _ & Hg).
    apply bind_Ok in Hg as (amount & _ & [= <-]). reflexivity. }
  split.
  - assert (Hps : address ∘ pp_token <$> ps
                  = (filter (fun ptb : string * Z => ptb.2 ≠ 0) balances).*1).
    { eapply promiseAll_fmap; [|exact H].
      intros ptb p Hp; simpl in Hp.
      apply bind_Ok in Hp as (meta & _ & Hp).
      apply bind_Ok in Hp as (us & _ & [= <-]). reflexivity. }
    rewrite Hps.
    assert (Hsub : (filter (fun ptb : string * Z => ptb.2 ≠ 0) balances).*1
                   `sublist_of` balances.*1)
      by apply fmap_sublist, sublist_filter.
    assert (Hnodup : NoDup balances.*1)
      by (rewrite Hfst; apply NoDup_fst_map_to_list).
    exact (sublist_NoDup _ _ Hnodup Hsub).
  - intros k pm b Hpm Hb Hnz.
    apply promiseAll_Ok in Hbal. apply promiseAll_Ok in H.
    destruct (Forall2_exists_r _ _ _ (protocolToken pm) Hbal)
      as (ptb & Hin & Hg).
    { unfold getProtocolTokens, buildMetadata.
      apply list_elem_of_fmap. exists pm. split; [reflexivity|].
      apply list_elem_of_fmap. exists (k, pm). split; [reflexivity|].
      apply elem_of_map_to_list. exact Hpm. }
    simpl in Hg. rewrite (Hkeys k pm Hpm) in Hg.
    rewrite (proj2 (_fetchPoolMetadata_Ok this k pm) Hpm) in Hg; simpl in Hg.
    rewrite Hb in Hg; simpl in Hg. injection Hg as <-.
    destruct (Forall2_exists_r _ _ _ (k, b) H) as (p & Hp & Hh).
    { apply list_elem_of_filter. split; [exact Hnz | exact Hin]. }
    exists p. split; [exact Hp|]. simpl in Hh.
    apply bind_Ok in Hh as (meta & _ & Hh).
    apply bind_Ok in Hh as (us & _ & [= <-]). split; reflexivity.
Qed.

(** X6.  Every position [getPositions] returns restates its raw balance as
    [balance], is typed [Protocol], and takes its name, symbol and decimals
    from the protocol token the metadata holds under its address. *)
Theorem getPositions_entries_carry_protocol_token_metadata
    (user : string) (block : option Z) (ps : list ProtocolPosition) :
  getPositions this user block = Ok ps →
  Forall (fun p =>
    pp_balance p = pp_balanceRaw p
    ∧ pp_type p = TokenType.Protocol
    ∧ ∃ pm : PoolMetadata,
        metadata this !! address (pp_token p) = Some pm
        ∧ name (pp_token p) = name (protocolToken pm)
        ∧ symbol (pp_token p) = symbol (protocolToken pm)
        ∧ decimals (pp_token p) = decimals (protocolToken pm)) ps.
Proof.
  intros H. unfold getPositions in H.
  apply bind_Ok in H as (balances & _ & H).
  apply promiseAll_Ok, Forall2_exists_l in H.
  eapply Forall_impl; [exact H|]. clear H.
  intros p (ptb & _ & H); simpl in H.
  apply bind_Ok in H as (meta & Hmeta & H).
  apply bind_Ok in H as (us & _ & [= <-]); simpl.
  unfold _fetchProtocolTokenMetadata in Hmeta.
  apply fmap_Ok in Hmeta as (pm & Hpm & ->).
  apply _fetchPoolMetadata_Ok in Hpm.
  do 2 (split; [reflexivity|]). exists pm. repeat split. exact Hpm.
Qed.

(** X7.  The movements [_getMovements] returns are, in order, those of the
    queried logs that carry arguments: each keeps the block number of its
    log, names the protocol token of the pool registered under
    [args.underlying], and holds exactly one movement, filed under the
    address of the underlying token of that pool, of value [args.amount];
    logs without arguments are dropped.  In particular every such
    [args.underlying] is a key of the metadata. *)
Theorem _getMovements_follow_the_logs (input : GetEventsInput)
    (eventType : string) (ms : list MovementsByBlock) :
  _getMovements this input eventType = Ok ms →
  ∃ logs : list EventLog,
    queryFilter (protocolTokenAddress input)
      (movementFilter eventType (userAddress input))
      (fromBlock input) (toBlock input) = Ok logs
    ∧ Forall2 (fun (log : EventLog) (mv : MovementsByBlock) =>
        ∃ (data : EventArgs) (pm : PoolMetadata),
          args log = Some data
          ∧ metadata this !! underlying data = Some pm
          ∧ mv = {| mb_protocolToken := protocolToken pm;
                    underlyingTokensMovement :=
                      {[ address (underlyingToken pm) :=
                           {| mv_token := underlyingToken pm;
                              mv_transactionHash := transactionHash log;
                              movementValueRaw := amount data |} ]};
                    mb_blockNumber := blockNumber log |})
        (filter (fun log => is_Some (args log)) logs) ms.
Proof.
  intros H. unfold _getMovements in H.
  apply bind_Ok in H as (logs & Hlogs & H).
  apply bind_Ok in H as (mvs & Hmvs & [= <-]).
  exists logs. split; [exact Hlogs|]. clear Hlogs.
  apply promiseAll_Ok in Hmvs.
  induction Hmvs as [|log mv logs mvs Hmv _ IH]; [constructor|].
  unfold movementOfEvent, _extractEventData in Hmv.
  apply bind_Ok in Hmv as (casted & Hcast & Hmv).
  assert (casted = log) as ->.
  { unfold _castEventToLogType in Hcast.
    repeat (destruct (String.eqb _ _); [congruence|]). discriminate. }
  rewrite filter_cons. simpl.
  destruct (args log) as [data|] eqn:Hargs.
  - rewrite decide_True by eauto.
    apply bind_Ok in Hmv as (tok & Htok & Hmv).
    apply bind_Ok in Hmv as (us & Hus & [= <-]).
    unfold _fetchProtocolTokenMetadata in Htok.
    apply fmap_Ok in Htok as (pm & Hpm & ->).
    unfold _fetchUnderlyingTokensMetadata in Hus.
    rewrite Hpm in Hus; simpl in Hus. injection Hus as <-.
    apply _fetchPoolMetadata_Ok in Hpm.
    simpl. constructor; [|exact IH].
    exists data, pm. rewrite insert_empty. repeat split; assumption.
  - rewrite decide_False by (intros [? [=]]).
    injection Hmv as <-. simpl. exact IH.
Qed.

(** X8.  The two [switch]es on the event type accept the same strings: a
    filter is built exactly for the types that [_castEventToLogType] lets
    through.  For any other string the query is made without a filter, and
    the call returns no movement if that query returns no log and fails
    with 'Invalid event type' otherwise. *)
Theorem event_type_switches_agree (input : GetEventsInput)
    (eventType : string) :
  (∀ log, is_Some (movementFilter eventType (userAddress input))
          ↔ _castEventToLogType log eventType = Ok log)
  ∧ (movementFilter eventType (userAddress input) = None →
     (queryFilter (protocolTokenAddress input) None
        (fromBlock input) (toBlock input) = Ok [] →
      _getMovements this input eventType = Ok [])
     ∧ (∀ log logs,
          queryFilter (protocolTokenAddress input) None
            (fromBlock input) (toBlock input) = Ok (log :: logs) →
          _getMovements this input eventType = Err InvalidEventType)).
Proof.
  split.
  - intros log. unfold movementFilter, _castEventToLogType.
    repeat (destruct (String.eqb _ _); [split; eauto|]).
    split; [intros [? [=]] | discriminate].
  - intros Hnone. unfold _getMovements. rewrite Hnone. split.
    + intros ->. reflexivity.
    + intros log logs ->. simpl.
      unfold movementOfEvent, _castEventToLogType.
      unfold movementFilter in Hnone.
      repeat (destruct (String.eqb _ _); [discriminate|]).
      reflexivity.
Qed.

End PositionsAndMovements.

Section ProfitReports.

Context `{CR : ChainReader}.
Variable (this : Adapter).
Variable formatProtocolTokenArrayToMap :
  list ProtocolPosition → gmap string PositionEntry.

(** X9.  [getProfits] reports on the positions held at [toBlock] only: for
    a user with no position left at [toBlock] the list of tokens is empty,
    whatever was held at [fromBlock] and whatever moved in between (given
    that no positions format to no entries). *)
Theorem getProfits_ignores_closed_positions (user : string) (fromB toB : Z)
    (startPositions : list ProtocolPosition) :
  formatProtocolTokenArrayToMap [] = ∅ →
  getPositions this user (Some toB) = Ok [] →
  getPositions this user (Some fromB) = Ok startPositions →
  getProfits this formatProtocolTokenArrayToMap user fromB toB
  = Ok {| pr_tokens := []; pr_fromBlock := fromB; pr_toBlock := toB |}.
Proof.
  intros Hformat Hend Hstart. unfold getProfits.
  rewrite Hend, Hstart; simpl.
  rewrite Hformat, map_to_list_empty. reflexivity.
Qed.

(** X10.  A report of [getProfits] is consistent with itself: it repeats
    the block range it was asked for, and the profit of every underlying
    token can be recomputed from the calculation data reported beside it,
    as [end + withdrawals − deposits − start], negated for a borrow
    adapter. *)
Theorem getProfits_report_is_self_consistent (user : string) (fromB toB : Z)
    (r : ProfitsWithRange) :
  getProfits this formatProtocolTokenArrayToMap user fromB toB = Ok r →
  pr_fromBlock r = fromB
  ∧ pr_toBlock r = toB
  ∧ Forall (fun pf =>
      pf_type pf = TokenType.Protocol
      ∧ Forall (fun up =>
          up_type up = TokenType.Underlying
          ∧ profitRaw up =
              profitSign (positionType this)
              * (endPositionValueRaw (calculationData up)
                 + withdrawalsRaw (calculationData up)
                 - depositsRaw (calculationData up)
                 - startPositionValueRaw (calculationData up)))
          (pf_tokens pf))
      (pr_tokens r).
Proof.
  intros H. unfold getProfits in H.
  apply bind_Ok in H as (endValues & _ & H).
  apply bind_Ok in H as (startValues & _ & H).
  apply bind_Ok in H as (tokens & Htokens & [= <-]); simpl.
  do 2 (split; [reflexivity|]).
  apply promiseAll_Ok, Forall2_exists_l in Htokens.
  eapply Forall_impl; [exact Htokens|]. clear Htokens.
  intros pf (entry & _ & H); simpl in H.
  apply bind_Ok in H as (events & _ & [= <-]); simpl.
  split; [reflexivity|].
  apply Forall_fmap, Forall_forall. intros endPosition _. simpl.
  split; [reflexivity|].
  destruct (positionType this); simpl; lia.
Qed.

End ProfitReports.

(** Witness of X5. *)
Lemma getPositions_lists_each_funded_market_once_witness :
  getPositions (CR := scenarioChain) (sampleAdapter Supply) "user" (Some 20)
  = Ok [samplePosition 320]
  ∧ NoDup (address ∘ pp_token <$> [samplePosition 320])
  ∧ ∃ p, p ∈ [samplePosition 320]
         ∧ address (pp_token p) = "aWETH" ∧ pp_balanceRaw p = 320.
Proof.
  assert (H : getPositions (CR := scenarioChain) (sampleAdapter Supply)
                "user" (Some 20) = Ok [samplePosition 320])
    by (vm_compute; reflexivity).
  split; [exact H|].
  destruct (getPositions_lists_each_funded_market_once
              (CR := scenarioChain) (sampleAdapter Supply) "user" (Some 20)
              _ (sampleAdapter_keyed Supply) H) as [Hnodup Hall].
  split; [exact Hnodup|].
  exact (Hall "aWETH" {| protocolToken := aWETH; underlyingToken := WETH |}
           320 eq_refl eq_refl ltac:(discriminate)).
Defined.

(** Witness of X6. *)
Lemma getPositions_entries_carry_protocol_token_metadata_witness :
  getPositions (CR := scenarioChain) (sampleAdapter Supply) "user" (Some 20)
  = Ok [samplePosition 320]
  ∧ Forall (fun p => pp_balance p = pp_balanceRaw p) [samplePosition 320].
Proof.
  assert (H : getPositions (CR := scenarioChain) (sampleAdapter Supply)
                "user" (Some 20) = Ok [samplePosition 320])
    by (vm_compute; reflexivity).
  split; [exact H|].
  eapply Forall_impl.
  - exact (getPositions_entries_carry_protocol_token_metadata
             (CR := scenarioChain) (sampleAdapter Supply) "user" (Some 20)
             _ H).
  - intros p [Hp _]. exact Hp.
Defined.

(** Witness of X7. *)
Lemma _getMovements_follow_the_logs_witness :
  ∃ ms logs,
    _getMovements (CR := mixedLogChain) (sampleAdapter Supply) sampleInput
      "supplied" = Ok ms
    ∧ queryFilter (ChainReader := mixedLogChain) "aWETH"
        (Some (Supplied "user")) 10 20 = Ok logs
    ∧ length logs = 3%nat
    ∧ mb_blockNumber <$> ms = [15; 15].
Proof.
  assert (H : ∃ ms, _getMovements (CR := mixedLogChain) (sampleAdapter Supply)
                      sampleInput "supplied" = Ok ms
                    ∧ mb_blockNumber <$> ms = [15; 15]).
  { eexists. split; [vm_compute; reflexivity | reflexivity]. }
  destruct H as (ms & Hms & Hblocks).
  destruct (_getMovements_follow_the_logs (CR := mixedLogChain)
              (sampleAdapter Supply) sampleInput "supplied" ms Hms)
    as (logs & Hlogs & _).
  exists ms, logs. split; [exact Hms|]. split; [exact Hlogs|].
  split; [|exact Hblocks].
  vm_compute in Hlogs. injection Hlogs as <-. reflexivity.
Defined.

(** Witness of X8. *)
Lemma event_type_switches_agree_witness :
  movementFilter "claimed" "user" = None
  ∧ _getMovements (CR := oneLogChain) (sampleAdapter Supply) sampleInput
      "claimed" = Err InvalidEventType
  ∧ _getMovements (CR := scenarioChain) (sampleAdapter Supply) sampleInput
      "claimed" = Ok [].
Proof.
  split; [reflexivity|].
  split.
  - exact (proj2 (proj2 (event_type_switches_agree (CR := oneLogChain)
             (sampleAdapter Supply) sampleInput "claimed") eq_refl)
             (sampleLog 7) [] eq_refl).
  - exact (proj1 (proj2 (event_type_switches_agree (CR := scenarioChain)
             (sampleAdapter Supply) sampleInput "claimed") eq_refl)
             eq_refl).
Defined.

(** Witness of X9. *)
Lemma getProfits_ignores_closed_positions_witness :
  getPositions (CR := closedPositionChain) (sampleAdapter Supply) "user"
    (Some 10) = Ok [samplePosition 200]
  ∧ getProfits (CR := closedPositionChain) (sampleAdapter Supply) sampleFormat
      "user" 10 20
    = Ok {| pr_tokens := []; pr_fromBlock := 10; pr_toBlock := 20 |}.
Proof.
  assert (H : getPositions (CR := closedPositionChain) (sampleAdapter Supply)
                "user" (Some 10) = Ok [samplePosition 200])
    by (vm_compute; reflexivity).
  split; [exact H|].
  apply (getProfits_ignores_closed_positions (CR := closedPositionChain)
           (sampleAdapter Supply) sampleFormat "user" 10 20
           [samplePosition 200]).
  - reflexivity.
  - vm_compute; reflexivity.
  - exact H.
Defined.

(** Witness of X10. *)
Lemma getProfits_report_is_self_consistent_witness :
  ∃ r, getProfits (CR := scenarioChain) (sampleAdapter Supply) sampleFormat
         "user" 10 20 = Ok r
       ∧ pr_fromBlock r = 10 ∧ pr_toBlock r = 20.
Proof.
  assert (H : ∃ r, getProfits (CR := scenarioChain) (sampleAdapter Supply)
                     sampleFormat "user" 10 20 = Ok r)
    by (eexists; vm_compute; reflexivity).
  destruct H as (r & Hr). exists r. split; [exact Hr|].
  destruct (getProfits_report_is_self_consistent (CR := scenarioChain)
              (sampleAdapter Supply) sampleFormat "user" 10 20 r Hr)
    as (Hfrom & Hto & _).
  split; assumption.
Defined.

(** ** Building the metadata *)

Lemma keyedByProtocolToken_insert (md : gmap string PoolMetadata)
    (pool : PoolMetadata) :
  keyedByProtocolToken md →
  keyedByProtocolToken (<[address (protocolToken pool) := pool]> md).
Proof.
  intros Hmd k pm Hk.
  apply lookup_insert_Some in Hk as [[<- <-]|[_ Hk]];
    [reflexivity | exact (Hmd k pm Hk)].
Qed.

Lemma keyedByProtocolToken_foldl (pools : list PoolMetadata)
    (md : gmap string PoolMetadata) :
  keyedByProtocolToken md →
  keyedByProtocolToken
    (foldl (fun acc pool => <[address (protocolToken pool) := pool]> acc)
           md pools).
Proof.
  revert md. induction pools as [|pool pools IH]; intros md Hmd; simpl.
  - exact Hmd.
  - apply IH, keyedByProtocolToken_insert, Hmd.
Qed.

Lemma foldl_insert_elem (pools : list PoolMetadata)
    (md : gmap string PoolMetadata) (k : string) (pm : PoolMetadata) :
  foldl (fun acc pool => <[address (protocolToken pool) := pool]> acc)
        md pools !! k = Some pm →
  md !! k = Some pm ∨ pm ∈ pools.
Proof.
  revert md. induction pools as [|pool pools IH]; intros md H; simpl in H.
  - left; exact H.
  - destruct (IH _ H) as [Hk|Hin]; [|right; right; exact Hin].
    apply lookup_insert_Some in Hk as [[_ <-]|[_ Hk]];
      [right; left | left; exact Hk].
Qed.

Section BuildMetadata.

Context `{CR : ChainReader} `{MR : MarketsReader} `{E : TokenMetadata.Env}.
Variable (this : Adapter).
Variable ZERO_ADDRESS : string.

Lemma metadataObject_keyed (md : gmap string PoolMetadata) :
  metadataObject this ZERO_ADDRESS = Ok md → keyedByProtocolToken md.
Proof.
  intros Hmd. unfold metadataObject in Hmd.
  apply bind_Ok in Hmd as (markets & _ & Hmd).
  apply bind_Ok in Hmd as (pools & _ & [= <-]).
  apply keyedByProtocolToken_foldl. intros k pm Hk.
  rewrite lookup_empty in Hk. discriminate.
Qed.

Lemma buildMetadataCached_fresh (md : gmap string PoolMetadata)
    (cache : option (gmap string PoolMetadata)) :
  buildMetadataCached this ZERO_ADDRESS None = Ok (md, cache) →
  metadataObject this ZERO_ADDRESS = Ok md ∧ cache = Some md.
Proof.
  intros H. unfold buildMetadataCached in H.
  apply bind_Ok in H as (md' & Hmd & [= <- <-]). split; [exact Hmd | reflexivity].
Qed.

(** X11.  The object a first [buildMetadata] returns files every pool under
    the address of its protocol token, and it is the object the cache holds
    afterwards. *)
Theorem buildMetadata_keys_are_protocol_token_addresses
    (md : gmap string PoolMetadata) (cache : option (gmap string PoolMetadata)) :
  buildMetadataCached this ZERO_ADDRESS None = Ok (md, cache) →
  keyedByProtocolToken md ∧ cache = Some md.
Proof.
  intros H. apply buildMetadataCached_fresh in H as [Hmd ->].
  split; [exact (metadataObject_keyed md Hmd) | reflexivity].
Qed.

(** X12.  For a borrow adapter every market resolves to the same pair of
    hard-coded tokens, so the metadata has no entry when Morpho has no
    market and exactly one otherwise: the first of the two tokens, filed
    under its address, with the second as its underlying token. *)
Theorem buildMetadata_of_borrow_adapter_has_one_pool
    (md : gmap string PoolMetadata) (cache : option (gmap string PoolMetadata))
    (markets : list string) :
  positionType this = Borrow →
  marketsCreated = Ok markets →
  buildMetadataCached this ZERO_ADDRESS None = Ok (md, cache) →
  (markets = [] → md = ∅)
  ∧ (markets ≠ [] →
     ∃ protocolToken underlyingToken : Erc20Metadata,
       TokenMetadata.getTokenMetadata
         "0x4d5f47fa6a74757f35c14fd3a6ef8e3c9bc514e8" (chainId this)
       = Ok protocolToken
       ∧ TokenMetadata.getTokenMetadata
           "0xc02aaa39b223fe8d0a0e5c4f27ead9083c756cc2" (chainId this)
         = Ok underlyingToken
       ∧ md = {[ address protocolToken :=
                   {| protocolToken := protocolToken;
                      underlyingToken := underlyingToken |} ]}).
Proof.
  intros Hborrow Hmarkets H. unfold buildMetadataCached in H.
  apply bind_Ok in H as (md' & Hmd & [= <- <-]).
  unfold metadataObject in Hmd. rewrite Hmarkets in Hmd; simpl in Hmd.
  apply bind_Ok in Hmd as (pools & Hpools & [= <-]).
  apply promiseAll_Ok in Hpools.
  split.
  - intros ->. inversion Hpools. reflexivity.
  - intros Hne.
    destruct Hpools as [|market pool markets pools Hpool Hpools]; [done|].
    unfold marketMetadata in Hpool.
    rewrite decide_True in Hpool by exact Hborrow.
    apply bind_Ok in Hpool as (p & Hp & Hpool).
    apply bind_Ok in Hpool as (u & Hu & [= <-]).
    exists p, u. do 2 (split; [assumption|]). simpl.
    rewrite insert_empty. clear Hmarkets Hne.
    induction Hpools as [|market' pool' markets' pools' Hpool' _ IH];
      [reflexivity|].
    unfold marketMetadata in Hpool'.
    rewrite decide_True, Hp in Hpool' by exact Hborrow; simpl in Hpool'.
    rewrite Hu in Hpool'; simpl in Hpool'. injection Hpool' as <-.
    simpl. rewrite insert_singleton_eq. exact IH.
Qed.

(** X13.  For an adapter that is not a borrow adapter, an aToken whose
    [UNDERLYING_ASSET_ADDRESS()] call fails does not fail the build: when no
    aToken answers that call, every pool of the metadata has for underlying
    token whatever [getTokenMetadata] resolves [ZERO_ADDRESS] to. *)
Theorem buildMetadata_falls_back_to_zero_address
    (md : gmap string PoolMetadata) (cache : option (gmap string PoolMetadata)) :
  positionType this ≠ Borrow →
  (∀ aToken, ∃ e, UNDERLYING_ASSET_ADDRESS aToken = Err e) →
  buildMetadataCached this ZERO_ADDRESS None = Ok (md, cache) →
  ∀ (k : string) (pm : PoolMetadata),
    md !! k = Some pm →
    TokenMetadata.getTokenMetadata ZERO_ADDRESS (chainId this)
    = Ok (underlyingToken pm).
Proof.
  intros Hnot Hfail H k pm Hk. unfold buildMetadataCached in H.
  apply bind_Ok in H as (md' & Hmd & [= <- <-]).
  unfold metadataObject in Hmd.
  apply bind_Ok in Hmd as (markets & _ & Hmd).
  apply bind_Ok in Hmd as (pools & Hpools & [= <-]).
  apply foldl_insert_elem in Hk as [Hk|Hin];
    [rewrite lookup_empty in Hk; discriminate|].
  apply promiseAll_Ok, Forall2_exists_l in Hpools.
  rewrite Forall_forall in Hpools.
  destruct (Hpools pm Hin) as (market & _ & Hpool).
  unfold marketMetadata in Hpool.
  rewrite decide_False in Hpool by exact Hnot.
  apply bind_Ok in Hpool as (rd & _ & Hpool).
  destruct (Hfail (aTokenAddress rd)) as (e & He).
  rewrite He in Hpool.
  apply bind_Ok in Hpool as (p & _ & Hpool).
  apply bind_Ok in Hpool as (u & Hu & [= <-]). exact Hu.
Qed.

(** X14.  Once built, the metadata is served from the cache: a second
    [buildMetadata] returns the same object and leaves the cache as it is,
    whatever the chain, the market list and the token files have become in
    the meantime. *)
Theorem buildMetadata_is_served_from_the_cache
    (md : gmap string PoolMetadata) (cache : option (gmap string PoolMetadata))
    (CR' : ChainReader) (MR' : MarketsReader) (E' : TokenMetadata.Env) :
  buildMetadataCached (CR := CR) (MR := MR) (E := E) this ZERO_ADDRESS None
  = Ok (md, cache) →
  buildMetadataCached (CR := CR') (MR := MR') (E := E') this ZERO_ADDRESS cache
  = Ok (md, cache).
Proof.
  intros H. apply buildMetadataCached_fresh in H as [_ ->]. reflexivity.
Qed.

(** X15.  Metadata and positions compose: on the adapter that holds the
    object [buildMetadata] returned, [getPositions] returns whenever the
    balance of every registered pool can be read. *)
Theorem getPositions_returns_on_built_metadata
    (md : gmap string PoolMetadata) (cache : option (gmap string PoolMetadata))
    (user : string) (block : option Z) :
  buildMetadataCached this ZERO_ADDRESS None = Ok (md, cache) →
  (∀ (k : string) (pm : PoolMetadata),
     md !! k = Some pm →
     ∃ b, getBalance (withMetadata this md) (underlyingToken pm) user block
          = Ok b) →
  ∃ ps, getPositions (withMetadata this md) user block = Ok ps.
Proof.
  intros H Hreads.
  apply getPositions_returns; [|exact Hreads].
  apply buildMetadataCached_fresh in H as [Hmd _].
  exact (metadataObject_keyed md Hmd).
Qed.

End BuildMetadata.

Lemma sample_metadata_is_built (pt : PositionType) :
  ∃ md, buildMetadataCached (CR := metadataChain) (MR := sampleMarkets)
          (E := sampleEnv true) (sampleAdapter pt) SAMPLE_ZERO_ADDRESS None
        = Ok (md, Some md).
Proof.
  assert (Hbuilt : match metadataObject (CR := metadataChain)
                           (MR := sampleMarkets) (E := sampleEnv true)
                           (sampleAdapter pt) SAMPLE_ZERO_ADDRESS with
                   | Ok _ => true
                   | Err _ => false
                   end = true)
    by (destruct pt; vm_compute; reflexivity).
  unfold buildMetadataCached.
  destruct (metadataObject _ _) as [md|e]; [|discriminate].
  exists md. reflexivity.
Qed.

(** Witness of X11. *)
Lemma buildMetadata_keys_are_protocol_token_addresses_witness :
  ∃ md, buildMetadataCached (CR := metadataChain) (MR := sampleMarkets)
          (E := sampleEnv true) (sampleAdapter Supply) SAMPLE_ZERO_ADDRESS None
        = Ok (md, Some md)
        ∧ keyedByProtocolToken md.
Proof.
  destruct (sample_metadata_is_built Supply) as (md & Hmd).
  exists md. split; [exact Hmd|].
  exact (proj1 (buildMetadata_keys_are_protocol_token_addresses
                  (CR := metadataChain) (MR := sampleMarkets)
                  (E := sampleEnv true) (sampleAdapter Supply)
                  SAMPLE_ZERO_ADDRESS md (Some md) Hmd)).
Defined.

(** Witness of X12. *)
Lemma buildMetadata_of_borrow_adapter_has_one_pool_witness :
  ∃ md, buildMetadataCached (CR := metadataChain) (MR := sampleMarkets)
          (E := sampleEnv true) (sampleAdapter Borrow) SAMPLE_ZERO_ADDRESS None
        = Ok (md, Some md)
        ∧ size md = 1%nat.
Proof.
  destruct (sample_metadata_is_built Borrow) as (md & Hmd).
  exists md. split; [exact Hmd|].
  destruct (buildMetadata_of_borrow_adapter_has_one_pool
              (CR := metadataChain) (MR := sampleMarkets) (E := sampleEnv true)
              (sampleAdapter Borrow) SAMPLE_ZERO_ADDRESS md (Some md)
              [WETH_ADDRESS; USDC_ADDRESS] eq_refl eq_refl Hmd) as [_ Hone].
  destruct (Hone ltac:(discriminate)) as (p & u & _ & _ & ->).
  apply map_size_singleton.
Defined.

(** Witness of X13. *)
Lemma buildMetadata_falls_back_to_zero_address_witness :
  ∃ md, buildMetadataCached (CR := metadataChain) (MR := sampleMarkets)
          (E := sampleEnv true) (sampleAdapter Supply) SAMPLE_ZERO_ADDRESS None
        = Ok (md, Some md)
        ∧ ∀ k pm, md !! k = Some pm →
            address (underlyingToken pm) = SAMPLE_ZERO_ADDRESS.
Proof.
  destruct (sample_metadata_is_built Supply) as (md & Hmd).
  exists md. split; [exact Hmd|].
  intros k pm Hk.
  pose proof (buildMetadata_falls_back_to_zero_address
                (CR := metadataChain) (MR := sampleMarkets)
                (E := sampleEnv true) (sampleAdapter Supply)
                SAMPLE_ZERO_ADDRESS md (Some md)
                ltac:(discriminate)
                (fun _ => ex_intro _ UpstreamReadFailure eq_refl)
                Hmd k pm Hk) as Hzero.
  assert (Hz : TokenMetadata.getTokenMetadata (E := sampleEnv true)
                 SAMPLE_ZERO_ADDRESS (chainId (sampleAdapter Supply))
               = Ok {| address := SAMPLE_ZERO_ADDRESS; name := "USD Coin";
                       symbol := "USDC"; decimals := 6 |})
    by (vm_compute; reflexivity).
  rewrite Hz in Hzero. injection Hzero as <-. reflexivity.
Defined.

(** Witness of X14. *)
Lemma buildMetadata_is_served_from_the_cache_witness :
  ∃ md, buildMetadataCached (CR := metadataChain) (MR := sampleMarkets)
          (E := sampleEnv true) (sampleAdapter Supply) SAMPLE_ZERO_ADDRESS None
        = Ok (md, Some md)
        ∧ buildMetadataCached (CR := unreadableMarketChain)
            (MR := {| marketsCreated := Err UpstreamReadFailure;
                      UNDERLYING_ASSET_ADDRESS := fun _ =>
                        Err UpstreamReadFailure |})
            (E := sampleEnv false) (sampleAdapter Supply) SAMPLE_ZERO_ADDRESS
            (Some md)
          = Ok (md, Some md).
Proof.
  destruct (sample_metadata_is_built Supply) as (md & Hmd).
  exists md. split; [exact Hmd|].
  exact (buildMetadata_is_served_from_the_cache
           (CR := metadataChain) (MR := sampleMarkets) (E := sampleEnv true)
           (sampleAdapter Supply) SAMPLE_ZERO_ADDRESS md (Some md) _ _ _ Hmd).
Defined.

(** Witness of X15. *)
Lemma getPositions_returns_on_built_metadata_witness :
  ∃ md ps,
    buildMetadataCached (CR := metadataChain) (MR := sampleMarkets)
      (E := sampleEnv true) (sampleAdapter Supply) SAMPLE_ZERO_ADDRESS None
    = Ok (md, Some md)
    ∧ getPositions (CR := metadataChain)
        (withMetadata (sampleAdapter Supply) md) "user" (Some 20) = Ok ps.
Proof.
  destruct (sample_metadata_is_built Supply) as (md & Hmd).
  destruct (getPositions_returns_on_built_metadata
              (CR := metadataChain) (MR := sampleMarkets) (E := sampleEnv true)
              (sampleAdapter Supply) SAMPLE_ZERO_ADDRESS md (Some md)
              "user" (Some 20) Hmd) as (ps & Hps).
  { intros k pm _. exists 320. reflexivity. }
  exists md, ps. split; assumption.
Defined.

(** ** Token metadata resolution, continued *)

Lemma lowerAscii_idemp (c : ascii) :
  TokenMetadata.lowerAscii (TokenMetadata.lowerAscii c)
  = TokenMetadata.lowerAscii c.
Proof.
  destruct c as [[] [] [] [] [] [] [] []]; reflexivity.
Qed.

Lemma toLowerCase_idemp (s : string) :
  TokenMetadata.toLowerCase (TokenMetadata.toLowerCase s)
  = TokenMetadata.toLowerCase s.
Proof.
  induction s as [|c s IH]; simpl; [reflexivity|].
  rewrite lowerAscii_idemp, IH. reflexivity.
Qed.

Section ResolutionDetails.

Import TokenMetadata.
Context `{E : Env}.

(** X16.  Whatever route the resolution takes, the address of the metadata
    it returns has been through [getAddress]; the one exception is the
    hard-coded REUSD record, returned as written. *)
Theorem resolved_address_is_normalised (tokenAddress : string)
    (chainId : Chain.t) (m : Erc20Metadata) :
  getTokenMetadata tokenAddress chainId = Ok m →
  m = REAL_ESTATE_TOKEN_METADATA
  ∨ ∃ raw : string, getAddress raw = Ok (address m).
Proof.
  unfold getTokenMetadata. intros H.
  apply bind_Ok in H as (ck & Hck & H).
  destruct (bool_decide _); [injection H as <-; left; reflexivity|].
  destruct (bool_decide _).
  { apply bind_Ok in H as (a & Ha & [= <-]). right; eauto. }
  destruct (fileTokenMetadata tokenAddress chainId) as [cached|].
  { apply bind_Ok in H as (a & Ha & [= <-]). right; eauto. }
  destruct (getOnChainTokenMetadata tokenAddress chainId) as [onChain|] eqn:Hc;
    [|discriminate].
  injection H as <-. unfold getOnChainTokenMetadata in Hc.
  match type of Hc with
  | match ?attempt with _ => _ end = _ =>
      destruct attempt as [m|] eqn:Hattempt; [|discriminate]
  end.
  injection Hc as <-.
  apply bind_Ok in Hattempt as (n & _ & Hattempt).
  apply bind_Ok in Hattempt as (s & _ & Hattempt).
  apply bind_Ok in Hattempt as (d & _ & Hattempt).
  apply bind_Ok in Hattempt as (ca & _ & Hattempt).
  apply bind_Ok in Hattempt as (a & Ha & [= <-]). right; eauto.
Qed.

(** X17.  A failure while reading a token on chain never reaches the
    caller as such: for an address that is accepted, is neither special
    nor in the file, a failing [decimals()] call, a failing
    [tokenContract.getAddress()], or a [name()] or [symbol()] call failing
    with anything but bad data, each turns the resolution into 'Cannot find
    token metadata'. *)
Theorem on_chain_failure_is_reported_as_not_found (tokenAddress : string)
    (chainId : Chain.t) (checksummed : string) (e : Error) :
  getAddress tokenAddress = Ok checksummed →
  ¬ (checksummed = address REAL_ESTATE_TOKEN_METADATA
     ∧ chainId = Chain.Ethereum) →
  tokenAddress ∉ nativeTokenAddresses →
  fileTokenMetadata tokenAddress chainId = None →
  callDecimals tokenAddress = Err e
  ∨ contractGetAddress tokenAddress = Err e
  ∨ (e ≠ BadData ∧ callString FieldName tokenAddress = Err e)
  ∨ (e ≠ BadData ∧ callString FieldSymbol tokenAddress = Err e) →
  getTokenMetadata tokenAddress chainId = Err TokenMetadataNotFound.
Proof.
  intros Hck Hreal Hnative Hfile Hfail. unfold getTokenMetadata.
  rewrite Hck; simpl.
  rewrite bool_decide_eq_false_2 by exact Hreal.
  rewrite bool_decide_eq_false_2 by exact Hnative.
  rewrite Hfile.
  assert (Hrethrow : ∀ f, e ≠ BadData → callString f tokenAddress = Err e →
            fetchStringTokenData tokenAddress f = Err e).
  { intros f Hne Hf. unfold fetchStringTokenData. rewrite Hf.
    destruct e; congruence. }
  assert (Hnone : getOnChainTokenMetadata tokenAddress chainId = None);
    [|rewrite Hnone; reflexivity].
  unfold getOnChainTokenMetadata.
  destruct Hfail as [Hd|[Ha|[[Hne Hn]|[Hne Hs]]]].
  - rewrite Hd.
    destruct (fetchStringTokenData tokenAddress FieldName); [|reflexivity].
    destruct (fetchStringTokenData tokenAddress FieldSymbol); reflexivity.
  - rewrite Ha.
    destruct (fetchStringTokenData tokenAddress FieldName); [|reflexivity].
    destruct (fetchStringTokenData tokenAddress FieldSymbol); [|reflexivity].
    destruct (callDecimals tokenAddress); reflexivity.
  - rewrite (Hrethrow _ Hne Hn). reflexivity.
  - rewrite (Hrethrow _ Hne Hs).
    destruct (fetchStringTokenData tokenAddress FieldName); reflexivity.
Qed.

(** X18.  The static file is looked up without regard to the case of the
    token address: two spellings that agree once lower-cased find the same
    entry, lower-casing being idempotent. *)
Theorem file_lookup_ignores_case (a b : string) (chainId : Chain.t) :
  toLowerCase a = toLowerCase b →
  fileTokenMetadata a chainId = fileTokenMetadata b chainId
  ∧ fileTokenMetadata (toLowerCase a) chainId = fileTokenMetadata a chainId.
Proof.
  intros Hab. unfold fileTokenMetadata.
  rewrite toLowerCase_idemp, Hab. split; reflexivity.
Qed.

End ResolutionDetails.

(** Witness of X16. *)
Lemma resolved_address_is_normalised_witness :
  TokenMetadata.getTokenMetadata (E := sampleEnv true)
    (TokenMetadata.toLowerCase WETH_ADDRESS) Chain.Ethereum
  = Ok {| address := WETH_ADDRESS; name := "Wrapped Ether"; symbol := "WETH";
          decimals := 18 |}
  ∧ ∃ raw, sampleGetAddress raw = Ok WETH_ADDRESS.
Proof.
  assert (H : TokenMetadata.getTokenMetadata (E := sampleEnv true)
                (TokenMetadata.toLowerCase WETH_ADDRESS) Chain.Ethereum
              = Ok {| address := WETH_ADDRESS; name := "Wrapped Ether";
                      symbol := "WETH"; decimals := 18 |})
    by (vm_compute; reflexivity).
  split; [exact H|].
  destruct (resolved_address_is_normalised (E := sampleEnv true) _ _ _ H)
    as [Hreal|Hraw]; [discriminate Hreal | exact Hraw].
Defined.

(** Witness of X17. *)
Lemma on_chain_failure_is_reported_as_not_found_witness :
  TokenMetadata.callDecimals (Env := sampleEnv false) USDC_ADDRESS
  = Err UpstreamReadFailure
  ∧ TokenMetadata.getTokenMetadata (E := sampleEnv false) USDC_ADDRESS
      Chain.Ethereum = Err TokenMetadataNotFound.
Proof.
  split; [reflexivity|].
  apply (on_chain_failure_is_reported_as_not_found (E := sampleEnv false)
           USDC_ADDRESS Chain.Ethereum USDC_ADDRESS UpstreamReadFailure).
  - reflexivity.
  - intros [Heq _]; discriminate Heq.
  - intros Hin. apply list_elem_of_singleton in Hin. discriminate Hin.
  - vm_compute; reflexivity.
  - left; reflexivity.
Defined.

(** Witness of X18. *)
Lemma file_lookup_ignores_case_witness :
  TokenMetadata.fileTokenMetadata (E := sampleEnv true) WETH_BAD_CHECKSUM
    Chain.Ethereum
  = TokenMetadata.fileTokenMetadata (E := sampleEnv true) WETH_ADDRESS
      Chain.Ethereum.
Proof.
  exact (proj1 (file_lookup_ignores_case (E := sampleEnv true)
                  WETH_BAD_CHECKSUM WETH_ADDRESS Chain.Ethereum eq_refl)).
Defined.

(** ** The earlier [getTokenMetadata] *)

Section LegacyResolution.

Import LegacyTokenMetadata.
Context `{E : Env}.

(** X19.  On a chain that has no provider the earlier [getTokenMetadata]
    resolves exactly the tokens of the static file, unchanged, for every
    address that is not a property name the file object inherits (the
    function looks the address up as it is given); and since only Ethereum
    and Arbitrum have a file, on any other such chain it fails for every
    address. *)
Theorem legacy_resolution_without_provider (tokenAddress : string)
    (chainId : Chain.t) :
  chainProviders chainId = None →
  (tokenAddress ∉ Object_prototype_keys →
   ∀ m, getTokenMetadata tokenAddress chainId = Ok m
        ↔ (fileMetadata ← CHAIN_METADATA chainId;
           fileMetadata !! tokenAddress) = Some m)
  ∧ (chainId ≠ Chain.Ethereum → chainId ≠ Chain.Arbitrum →
     getTokenMetadata tokenAddress chainId = Err TokenMetadataNotFound).
Proof.
  intros Hnone. unfold getTokenMetadata, getOnChainTokenMetadata.
  rewrite Hnone. split.
  - intros _ m.
    destruct (CHAIN_METADATA chainId ≫= _) as [cached|];
      split; congruence.
  - intros He Ha. destruct chainId; try contradiction; reflexivity.
Qed.

(** X20.  A token that the earlier [getTokenMetadata] resolves on chain,
    the file not knowing it, comes back without an icon, with the decimals
    its contract reports, and with an address in lower case. *)
Theorem legacy_on_chain_metadata_is_lower_cased (tokenAddress : string)
    (chainId : Chain.t) (m : IconMetadata) :
  (fileMetadata ← CHAIN_METADATA chainId; fileMetadata !! tokenAddress) = None →
  getTokenMetadata tokenAddress chainId = Ok m →
  iconUrl m = None
  ∧ TokenMetadata.toLowerCase (address (token m)) = address (token m)
  ∧ ∃ provider, chainProviders chainId = Some provider
      ∧ callDecimals provider tokenAddress = Returned (decimals (token m)).
Proof.
  intros Hfile H. unfold getTokenMetadata in H. rewrite Hfile in H.
  unfold getOnChainTokenMetadata in H.
  destruct (chainProviders chainId) as [provider|]; [|discriminate].
  destruct (getTokenName provider tokenAddress); try discriminate.
  destruct (getTokenSymbol provider tokenAddress); try discriminate.
  destruct (callDecimals provider tokenAddress) eqn:Hd; try discriminate.
  destruct (contractGetAddress provider tokenAddress); try discriminate.
  injection H as <-. simpl.
  split; [reflexivity|]. split; [apply toLowerCase_idemp|].
  exists provider. split; [reflexivity | exact Hd].
Qed.

End LegacyResolution.

(** Witness of X19. *)
Lemma legacy_resolution_without_provider_witness :
  LegacyTokenMetadata.getTokenMetadata (E := legacyEnv) MKR_ADDRESS
    Chain.Polygon = Err TokenMetadataNotFound.
Proof.
  refine (proj2 (legacy_resolution_without_provider (E := legacyEnv)
                   MKR_ADDRESS Chain.Polygon eq_refl) _ _); discriminate.
Defined.

(** Witness of X20. *)
Lemma legacy_on_chain_metadata_is_lower_cased_witness :
  LegacyTokenMetadata.getTokenMetadata (E := legacyEnv) MKR_ADDRESS
    Chain.Ethereum
  = Ok {| LegacyTokenMetadata.token :=
            {| address := TokenMetadata.toLowerCase MKR_ADDRESS;
               name := "Maker"; symbol := "MKR"; decimals := 18 |};
          LegacyTokenMetadata.iconUrl := None |}
  ∧ TokenMetadata.toLowerCase (TokenMetadata.toLowerCase MKR_ADDRESS)
    = TokenMetadata.toLowerCase MKR_ADDRESS.
Proof.
  assert (H : LegacyTokenMetadata.getTokenMetadata (E := legacyEnv)
                MKR_ADDRESS Chain.Ethereum
              = Ok {| LegacyTokenMetadata.token :=
                        {| address := TokenMetadata.toLowerCase MKR_ADDRESS;
                           name := "Maker"; symbol := "MKR"; decimals := 18 |};
                      LegacyTokenMetadata.iconUrl := None |})
    by (vm_compute; reflexivity).
  split; [exact H|].
  destruct (legacy_on_chain_metadata_is_lower_cased (E := legacyEnv)
              MKR_ADDRESS Chain.Ethereum _ ltac:(vm_compute; reflexivity) H)
    as (_ & Hlower & _).
  exact Hlower.
Defined.

(** ** Command-line filters *)

Section ProtocolFilter.

Import Filters.

Lemma protocolFilter_found_inv (table : list (string * string))
    (value : string) (protocolId : string) (filterValues : list string) :
  List.find
    (fun entry : string * list string => includes entry.2 value)
    ((fun '(protocolKey, protocolId) =>
        (protocolId, [protocolId; TokenMetadata.toLowerCase protocolKey]))
       <$> table) = Some (protocolId, filterValues) →
  ∃ protocolKey,
    (protocolKey, protocolId) ∈ table
    ∧ (value = protocolId ∨ value = TokenMetadata.toLowerCase protocolKey).
Proof.
  intros H. apply List.find_some in H as [Hin Hinc].
  apply list_elem_of_In, list_elem_of_fmap in Hin
    as ([key id] & [= -> ->] & Hin).
  exists key. split; [exact Hin|].
  unfold includes in Hinc; simpl in Hinc.
  destruct (String.eqb_spec value id) as [->|_]; [left; reflexivity|].
  destruct (String.eqb_spec value (TokenMetadata.toLowerCase key)) as [->|_];
    [right; reflexivity | discriminate].
Qed.

(** X21.  On a non-empty ASCII input, [protocolFilter] returns a protocol
    id exactly when the input, trimmed and lower-cased, is that id or the
    lower-cased name of its key in [Protocol]; so every id and every key,
    in any case and with any surrounding white space, selects its own
    protocol, and nothing outside [Protocol] is ever returned. *)
Theorem protocolFilter_selects_by_id_or_key (filterInput protocolId : string) :
  isAscii filterInput = true →
  truthy filterInput = true →
  protocolFilter (Some filterInput) = Found protocolId
  ↔ ∃ protocolKey,
      (protocolKey, protocolId) ∈ Protocol
      ∧ (TokenMetadata.toLowerCase (trim filterInput) = protocolId
         ∨ TokenMetadata.toLowerCase (trim filterInput)
           = TokenMetadata.toLowerCase protocolKey).
Proof.
  intros _ Htruthy. unfold protocolFilter. rewrite Htruthy; simpl negb; cbv iota.
  set (value := TokenMetadata.toLowerCase (trim filterInput)).
  split.
  - destruct (List.find _ _) as [[id vals]|] eqn:Hfind; [|discriminate].
    destruct (truthy id); [|discriminate].
    intros [= ->]. exact (protocolFilter_found_inv _ _ _ _ Hfind).
  - intros (key & Hin & Hvalue). clearbody value.
    unfold Protocol in Hin.
    repeat (apply elem_of_cons in Hin as [[= -> ->]|Hin];
            [destruct Hvalue as [->| ->]; reflexivity|]).
    apply elem_of_nil in Hin. contradiction.
Qed.

(** X22.  [protocolFilter] returns [undefined] for a missing or empty
    filter, but a filter made of white space only is not empty: trimmed, it
    matches no protocol, and the call throws. *)
Theorem protocolFilter_on_blank_input (filterInput : string) :
  protocolFilter None = Undefined
  ∧ protocolFilter (Some "") = Undefined
  ∧ (isAscii filterInput = true →
     truthy filterInput = true →
     trim filterInput = "" →
     protocolFilter (Some filterInput)
     = Thrown ("No protocol matches the given filter: " +:+ filterInput)).
Proof.
  split; [reflexivity|]. split; [reflexivity|].
  intros _ Htruthy Htrim. unfold protocolFilter.
  rewrite Htruthy, Htrim. reflexivity.
Qed.

End ProtocolFilter.

(** Witness of X21. *)
Lemma protocolFilter_selects_by_id_or_key_witness :
  Filters.protocolFilter (Some "  MorphoAaveV3 ") = Filters.Found "morpho-aave-v3".
Proof.
  apply (proj2 (protocolFilter_selects_by_id_or_key "  MorphoAaveV3 "
                  "morpho-aave-v3" eq_refl eq_refl)).
  exists "MorphoAaveV3". split; [|right; reflexivity].
  unfold Filters.Protocol.
  repeat (apply elem_of_cons; first [left; reflexivity | right]).
Defined.

(** Witness of X22. *)
Lemma protocolFilter_on_blank_input_witness :
  Filters.protocolFilter (Some "  ")
  = Filters.Thrown "No protocol matches the given filter:   ".
Proof.
  exact (proj2 (proj2 (protocolFilter_on_blank_input "  "))
           eq_refl eq_refl eq_refl).
Defined.

(** ** Keys of the metadata files *)

Lemma noDot_pretty_N_go (x : N) (s : string) :
  noDot s = true → noDot (pretty_N_go x s) = true.
Proof.
  revert s. induction (N.lt_wf_0 x) as [x _ IH]; intros s Hs.
  assert (x = 0 ∨ 0 < x)%N as [->|Hpos] by lia.
  - rewrite pretty_N_go_0. exact Hs.
  - rewrite pretty_N_go_step by exact Hpos. apply IH.
    + apply N.div_lt; [exact Hpos | reflexivity].
    + simpl. rewrite Hs. unfold pretty_N_char.
      repeat case_match; reflexivity.
Qed.

Lemma noDot_pretty (n : N) : noDot (pretty n) = true.
Proof.
  unfold pretty, pretty_N. case_decide; [reflexivity|].
  apply noDot_pretty_N_go. reflexivity.
Qed.

Lemma append_dot_inj (a a' r r' : string) :
  noDot a = true → noDot a' = true →
  a +:+ "." +:+ r = a' +:+ "." +:+ r' → a = a' ∧ r = r'.
Proof.
  assert (Hnil : ∀ s, "" +:+ s = s) by reflexivity.
  assert (Hcons : ∀ c a s, String c a +:+ s = String c (a +:+ s))
    by reflexivity.
  revert a'. induction a as [|c a IH]; intros [|c' a'] Ha Ha' H;
    rewrite ?Hnil, ?Hcons, ?Hnil in H; simpl in Ha, Ha'.
  - injection H as ->. split; reflexivity.
  - injection H as <- _. discriminate.
  - injection H as -> _. discriminate.
  - injection H as -> H.
    apply andb_true_iff in Ha as [_ Ha]. apply andb_true_iff in Ha' as [_ Ha'].
    destruct (IH a' Ha Ha' H) as [-> ->]. split; reflexivity.
Qed.

(** X23.  Two metadata keys are equal only if they are made of the same
    protocol, product, chain and file key, as long as protocol ids and
    product ids contain no dot. *)
Theorem metadataKey_inj (protocolId productId : string) (chainId : N)
    (fileKey : string) (protocolId' productId' : string) (chainId' : N)
    (fileKey' : string) :
  noDot protocolId = true → noDot productId = true →
  noDot protocolId' = true → noDot productId' = true →
  metadataKey protocolId productId chainId fileKey
  = metadataKey protocolId' productId' chainId' fileKey' →
  protocolId = protocolId' ∧ productId = productId'
  ∧ chainId = chainId' ∧ fileKey = fileKey'.
Proof.
  intros Hp Hq Hp' Hq' H. unfold metadataKey in H.
  apply append_dot_inj in H as [-> H]; [|assumption..].
  apply append_dot_inj in H as [-> H]; [|assumption..].
  apply append_dot_inj in H as [Hc ->]; [|apply noDot_pretty..].
  apply (inj pretty) in Hc as ->. repeat split.
Qed.

(** Witness of X23. *)
Lemma metadataKey_inj_witness :
  metadataKey "stargate" "pool" 1 "lp-token" = "stargate.pool.1.lp-token"
  ∧ ∀ p q c f,
      noDot p = true → noDot q = true →
      metadataKey p q c f = metadataKey "stargate" "pool" 1 "lp-token" →
      p = "stargate" ∧ q = "pool" ∧ c = 1%N ∧ f = "lp-token".
Proof.
  split; [reflexivity|].
  intros p q c f Hp Hq H.
  exact (metadataKey_inj p q c f "stargate" "pool" 1 "lp-token"
           Hp Hq eq_refl eq_refl H).
Defined.

(** ** The Curve staking adapter *)

Section CurveStakingAdapter.

Import CurveStaking.
Context `{PA : PoolAdapter}.

(** X24.  The balances [getUnderlyingTokenBalances] reports for a staked
    position: the first underlying token of the pool, its LP token, carries
    the staked balance unchanged, and below it there is one share per token
    of the rate the pool adapter reports for that LP token, in the same
    order and for the same token.  For a non-negative balance and rate the
    share is [balance × rate / 10^decimals] rounded down, so it never
    credits more than the exact amount and misses it by less than one unit;
    at a rate of exactly [10^decimals] it is the balance itself. *)
Theorem staked_shares_are_rounded_down
    (metadata : gmap string StakingPoolMetadata)
    (protocolTokenBalance : TokenBalance) (blockNumber : option Z)
    (out : list StakedUnderlying) :
  let balance := tb_balanceRaw protocolTokenBalance in
  let unit := 10 ^ Z.of_nat (decimals (tb_token protocolTokenBalance)) in
  getUnderlyingTokenBalances metadata protocolTokenBalance blockNumber
  = Done out →
  ∃ (pool : StakingPoolMetadata) (lp : Erc20Metadata)
    (others : list Erc20Metadata) (rates : list UnderlyingTokenRate)
    (su : StakedUnderlying),
    metadata !! address (tb_token protocolTokenBalance) = Some pool
    ∧ underlyingTokens pool = lp :: others
    ∧ getProtocolTokenToUnderlyingTokenRate (address lp) blockNumber
      = Ok (Some rates)
    ∧ out = [su]
    ∧ su_token su = lp
    ∧ su_balanceRaw su = balance
    ∧ Forall2 (fun (rate : UnderlyingTokenRate) (share : Underlying) =>
        u_token share = ur_token rate
        ∧ (0 ≤ balance → 0 ≤ underlyingRateRaw rate →
           0 ≤ u_balanceRaw share
           ∧ u_balanceRaw share * unit ≤ balance * underlyingRateRaw rate
           ∧ balance * underlyingRateRaw rate < (u_balanceRaw share + 1) * unit)
        ∧ (underlyingRateRaw rate = unit → u_balanceRaw share = balance))
        rates (su_tokens su).
Proof.
  intros balance unit H.
  unfold getUnderlyingTokenBalances, fetchPoolMetadata in H.
  destruct (metadata !! _) as [pool|] eqn:Hpool; [|discriminate].
  destruct (underlyingTokens pool) as [|lp others] eqn:Hlp; [discriminate|].
  destruct (getProtocolTokenToUnderlyingTokenRate _ _) as [[rates|]|] eqn:Hrates;
    try discriminate.
  injection H as <-. exists pool, lp, others, rates. eexists.
  do 6 (split; [first [assumption | reflexivity]|]). simpl.
  assert (Hunit : 0 < unit) by (apply Z.pow_pos_nonneg; lia).
  apply Forall2_fmap_r, Forall_Forall2_diag, Forall_forall.
  intros rate _. simpl. fold balance unit.
  split; [reflexivity|]. split.
  - intros Hb Hr.
    rewrite Z.quot_div_nonneg by nia.
    pose proof (Z.mul_div_le (balance * underlyingRateRaw rate) unit Hunit).
    pose proof (Z.mul_succ_div_gt (balance * underlyingRateRaw rate) unit Hunit).
    assert (0 ≤ balance * underlyingRateRaw rate / unit)
      by (apply Z.div_pos; nia).
    lia.
  - intros ->. apply Z.quot_mul. lia.
Qed.

Lemma buildMetadata_pools (results : list (option PoolData)) (a : string)
    (pool : StakingPoolMetadata) :
  buildMetadata results !! a = Some pool →
  address (protocolToken pool) = a
  ∧ ∃ lp, underlyingTokens pool = [lp]
          ∧ name (protocolToken pool) = name lp
          ∧ symbol (protocolToken pool) = symbol lp
          ∧ decimals (protocolToken pool) = decimals lp.
Proof.
  unfold buildMetadata.
  assert (Hgen : ∀ md : gmap string StakingPoolMetadata,
            (∀ a pool, md !! a = Some pool →
               address (protocolToken pool) = a
               ∧ ∃ lp, underlyingTokens pool = [lp]
                       ∧ name (protocolToken pool) = name lp
                       ∧ symbol (protocolToken pool) = symbol lp
                       ∧ decimals (protocolToken pool) = decimals lp) →
            ∀ a pool,
              foldl (fun metadata token =>
                       match poolEntry token with
                       | Some (staking, pool) => <[staking := pool]> metadata
                       | None => metadata
                       end) md results !! a = Some pool →
              address (protocolToken pool) = a
              ∧ ∃ lp, underlyingTokens pool = [lp]
                      ∧ name (protocolToken pool) = name lp
                      ∧ symbol (protocolToken pool) = symbol lp
                      ∧ decimals (protocolToken pool) = decimals lp).
  { induction results as [|token results IH]; intros md Hmd; simpl.
    - exact Hmd.
    - apply IH. destruct (poolEntry token) as [[staking p]|] eqn:Hentry;
        [|exact Hmd].
      intros a' pool' Hk.
      apply lookup_insert_Some in Hk as [[<- <-]|[_ Hk]]; [|exact (Hmd _ _ Hk)].
      unfold poolEntry in Hentry.
      destruct token as [token|]; [|discriminate].
      destruct (stakingToken token) as [s|]; [|discriminate].
      destruct (negb (truthy s)); [discriminate|].
      injection Hentry as <- <-. simpl.
      split; [reflexivity|]. exists (lpToken token). repeat split. }
  apply Hgen. intros a' pool' Hk. rewrite lookup_empty in Hk. discriminate.
Qed.

(** X25.  The metadata [buildMetadata] assembles files every pool under
    the address of its staking token, as a protocol token that borrows the
    name, symbol and decimals of the pool's LP token, its only underlying
    token.  On such metadata [getUnderlyingTokenBalances] therefore always
    finds an underlying token: for a registered staking token it fails
    only if the pool adapter fails or reports a rate without tokens. *)
Theorem staking_metadata_has_one_underlying_token
    (results : list (option PoolData)) (a : string)
    (pool : StakingPoolMetadata) :
  buildMetadata results !! a = Some pool →
  address (protocolToken pool) = a
  ∧ ∃ lp : Erc20Metadata,
      underlyingTokens pool = [lp]
      ∧ name (protocolToken pool) = name lp
      ∧ symbol (protocolToken pool) = symbol lp
      ∧ decimals (protocolToken pool) = decimals lp
      ∧ ∀ (protocolTokenBalance : TokenBalance) (blockNumber : option Z),
          address (tb_token protocolTokenBalance) = a →
          getUnderlyingTokenBalances (buildMetadata results)
            protocolTokenBalance blockNumber
          = match getProtocolTokenToUnderlyingTokenRate (address lp)
                    blockNumber with
            | Err e => Failed (Raised e)
            | Ok None => Failed NullDereference
            | Ok (Some tokens) =>
                Done [ {| su_token := lp;
                          su_type := TokenType.Underlying;
                          su_balanceRaw := tb_balanceRaw protocolTokenBalance;
                          su_tokens :=
                            underlyingShare protocolTokenBalance <$> tokens |} ]
            end.
Proof.
  intros Hpool.
  destruct (buildMetadata_pools results a pool Hpool)
    as (Ha & lp & Hlp & Hn & Hs & Hd).
  split; [exact Ha|]. exists lp. do 4 (split; [assumption|]).
  intros ptb block Haddr. unfold getUnderlyingTokenBalances, fetchPoolMetadata.
  rewrite Haddr, Hpool, Hlp. reflexivity.
Qed.

End CurveStakingAdapter.

(** Witness of X24. *)
Lemma staked_shares_are_rounded_down_witness :
  ∃ su,
    CurveStaking.getUnderlyingTokenBalances (PA := samplePoolAdapter)
      (CurveStaking.buildMetadata samplePools)
      {| tb_token := {| address := "0xGAUGE"; name := "Curve 3pool";
                        symbol := "3Crv"; decimals := 18 |};
         tb_balanceRaw := 5 |}
      None = CurveStaking.Done [su]
    ∧ CurveStaking.su_balanceRaw su = 5
    ∧ u_balanceRaw <$> CurveStaking.su_tokens su = [2; 3].
Proof.
  assert (H : ∃ su,
    CurveStaking.getUnderlyingTokenBalances (PA := samplePoolAdapter)
      (CurveStaking.buildMetadata samplePools)
      {| tb_token := {| address := "0xGAUGE"; name := "Curve 3pool";
                        symbol := "3Crv"; decimals := 18 |};
         tb_balanceRaw := 5 |}
      None = CurveStaking.Done [su]
    ∧ u_balanceRaw <$> CurveStaking.su_tokens su = [2; 3]).
  { eexists. split; [vm_compute; reflexivity | reflexivity]. }
  destruct H as (su & Hsu & Hshares).
  exists su. split; [exact Hsu|]. split; [|exact Hshares].
  destruct (staked_shares_are_rounded_down (PA := samplePoolAdapter) _ _ _ _ Hsu)
    as (pool & lp & others & rates & su' & _ & _ & _ & [= <-] & _ & Hbalance & _).
  exact Hbalance.
Defined.

(** Witness of X25. *)
Lemma staking_metadata_has_one_underlying_token_witness :
  ∃ pool,
    CurveStaking.buildMetadata samplePools !! "0xGAUGE" = Some pool
    ∧ address (CurveStaking.protocolToken pool) = "0xGAUGE"
    ∧ CurveStaking.buildMetadata samplePools !! "WETH" = None.
Proof.
  assert (H : ∃ pool,
            CurveStaking.buildMetadata samplePools !! "0xGAUGE" = Some pool)
    by (eexists; vm_compute; reflexivity).
  destruct H as (pool & Hpool). exists pool. split; [exact Hpool|].
  split; [|vm_compute; reflexivity].
  exact (proj1 (staking_metadata_has_one_underlying_token
                  (PA := samplePoolAdapter) samplePools "0xGAUGE" pool Hpool)).
Defined.
